(** * YouTube downloader (app.py): worker orchestration, verified

    A shallow embedding of the orchestration code of [app.py]: the
    [YtdlpWorker] methods that translate yt-dlp callbacks into Qt signals,
    and the [YouTubeDownloaderApp] slots that validate the URL, debounce the
    metadata fetch and start a download.

    Conventions of the embedding.
    - Python [str] is [string]; the [str] methods are modelled on ASCII
      characters (code points below 128).
    - A Python [dict] with string keys is a [gmap string pyval].
    - Python [float] is a binary64 number of [SpecFloat] (precision 53,
      [emax] 1024), with round-to-nearest-even arithmetic.
    - A method that can raise returns [pyexn + A].
    - Qt ([QUrl], [QMessageBox], [QTimer]), the file system and yt-dlp are
      outside the repository.  [QUrl], [Path.is_dir]/[Path.mkdir] and
      [os.path.join] are section variables; a yt-dlp session is a finite
      tree of hook calls ([ydl_run]); message boxes and worker calls are
      recorded in an effect trace.
    - The window calls the worker's methods directly, so a signal reaches
      its slot when it is emitted: slots run in emission order. *)

From Stdlib Require Import ZArith NArith String Ascii List Bool Lia.
From Stdlib Require Import Floats.SpecFloat.
From Stdlib Require Import DecimalString DecimalFacts DecimalPos DecimalN.
From stdpp Require Import base option gmap strings list.

Local Open Scope Z_scope.

(** ** Python values and built-ins *)

Module Py.

(** The exceptions the modelled expressions can raise.
    [SignalArgumentError] is the exception with which PyQt's [emit] refuses
    an argument it cannot convert (a [TypeError] or an [OverflowError], by
    the version of PyQt). *)
Inductive pyexn :=
| KeyError
| TypeError
| ValueError
| OverflowError
| ZeroDivisionError
| SignalArgumentError.

(** The values found in the dictionaries yt-dlp hands over.  [bool] is a
    subclass of [int] in Python and is covered by [VInt]. *)
Inductive pyval :=
| VNone
| VInt (z : Z)
| VFloat (f : spec_float)
| VStr (s : string).

(** *** Strings *)

(** [str.isspace] on one ASCII character: TAB, LF, VT, FF, CR, the four
    separators FS GS RS US, and the space. *)
Definition isspace (c : ascii) : bool :=
  let n := N_of_ascii c in
  ((9 <=? n) && (n <=? 13) || (28 <=? n) && (n <=? 32))%N.

Fixpoint lstrip (s : string) : string :=
  match s with
  | String c s' => if isspace c then lstrip s' else s
  | EmptyString => EmptyString
  end.

Fixpoint rstrip (s : string) : string :=
  match s with
  | String c s' =>
      match rstrip s' with
      | EmptyString => if isspace c then EmptyString else String c EmptyString
      | r => String c r
      end
  | EmptyString => EmptyString
  end.

(** [s.strip()] *)
Definition strip (s : string) : string := rstrip (lstrip s).

(** [s.replace(c, '')] for a one-character [c]: every occurrence goes. *)
Fixpoint replace_del (c : ascii) (s : string) : string :=
  match s with
  | String a s' => if Ascii.eqb a c then replace_del c s' else String a (replace_del c s')
  | EmptyString => EmptyString
  end.

(** [s.startswith(p)] *)
Definition startswith (s p : string) : bool := String.prefix p s.

(** [s.endswith(suffix)]: some tail of [s] is [suffix]. *)
Fixpoint endswith (s suffix : string) : bool :=
  String.eqb s suffix ||
  match s with
  | String _ s' => endswith s' suffix
  | EmptyString => false
  end.

(** [s.upper()] *)
Definition upper_char (c : ascii) : ascii :=
  let n := N_of_ascii c in
  if ((97 <=? n) && (n <=? 122))%N then ascii_of_N (n - 32) else c.

Fixpoint upper (s : string) : string :=
  match s with
  | String c s' => String (upper_char c) (upper s')
  | EmptyString => EmptyString
  end.

(** [s.split(sep)] for a one-character separator; never the empty list. *)
Fixpoint split (sep : ascii) (s : string) : list string :=
  match s with
  | EmptyString => [EmptyString]
  | String c s' =>
      if Ascii.eqb c sep then EmptyString :: split sep s'
      else match split sep s' with
           | p :: ps => String c p :: ps
           | [] => [String c EmptyString]
           end
  end.

(** [sep.join(parts)] *)
Fixpoint join (sep : string) (parts : list string) : string :=
  match parts with
  | [] => EmptyString
  | [p] => p
  | p :: ps => p +:+ sep +:+ join sep ps
  end.

(** [str(n)], [f'{n}'] and ['%d' % n] for an [int]. *)
Definition str_of_int (n : Z) : string := NilZero.string_of_int (Z.to_int n).

(** ['%02d' % n] for [0 <= n]. *)
Definition fmt_02d (n : Z) : string :=
  if n <? 10 then "0" +:+ str_of_int n else str_of_int n.

Definition digit_of (c : ascii) : option Z :=
  let n := N_of_ascii c in
  if ((48 <=? n) && (n <=? 57))%N then Some (Z.of_N n - 48) else None.

(** The digits of [int(s)]: decimal digits, single underscores allowed
    between two digits only.  [prev] tells whether the previous character
    was a digit. *)
Fixpoint int_digits (acc : Z) (prev : bool) (s : string) : option Z :=
  match s with
  | EmptyString => if prev then Some acc else None
  | String c s' =>
      match digit_of c with
      | Some d => int_digits (10 * acc + d) true s'
      | None =>
          if Ascii.eqb c "_"%char && prev then
            match s' with
            | String c' _ => if digit_of c' is Some _ then int_digits acc false s' else None
            | EmptyString => None
            end
          else None
      end
  end.

(** The white space that [int] skips around an ASCII string: that of C's
    [isspace], without the four separators. *)
Definition isspace_c (c : ascii) : bool :=
  let n := N_of_ascii c in
  ((9 <=? n) && (n <=? 13) || (n =? 32))%N.

Fixpoint lskip (s : string) : string :=
  match s with
  | String c s' => if isspace_c c then lskip s' else s
  | EmptyString => EmptyString
  end.

Fixpoint rskip (s : string) : string :=
  match s with
  | String c s' =>
      match rskip s' with
      | EmptyString => if isspace_c c then EmptyString else String c EmptyString
      | r => String c r
      end
  | EmptyString => EmptyString
  end.

(** [int(s)] for a [str]: surrounding white space, an optional sign, then
    the digits.  [None] stands for the [ValueError] that [int] raises on
    anything else.  The limit that recent versions of Python put on the
    number of digits (4300) is not modelled. *)
Definition int_of_str (s : string) : option Z :=
  match rskip (lskip s) with
  | String "+" t => int_digits 0 false t
  | String "-" t => Z.opp <$> int_digits 0 false t
  | t => int_digits 0 false t
  end.

(** *** Exceptions as a monad *)

#[global] Instance pyexn_ret : MRet (sum pyexn) := fun _ x => inr x.
#[global] Instance pyexn_bind : MBind (sum pyexn) := fun _ _ f m =>
  match m with
  | inl e => inl e
  | inr x => f x
  end.

Definition raise {A} (e : pyexn) : pyexn + A := inl e.

(** *** Numbers *)

(** Truth value of an object: [None], zero and the empty string are false;
    a NaN is true. *)
Definition truthy (v : pyval) : bool :=
  match v with
  | VNone => false
  | VInt z => negb (z =? 0)
  | VFloat (S754_zero _) => false
  | VFloat _ => true
  | VStr s => negb (String.eqb s "")
  end.

(** [a or b] *)
Definition py_or (a b : pyval) : pyval := if truthy a then a else b.

(** [v == s] for a string literal [s] *)
Definition eq_str (v : pyval) (s : string) : bool :=
  match v with
  | VStr t => String.eqb t s
  | _ => false
  end.

(** [float(n)] for an [int]: the nearest binary64 number, ties to even. *)
Definition float_of_int (n : Z) : pyexn + spec_float :=
  match binary_normalize 53 1024 n 0 false with
  | S754_infinity _ => raise OverflowError
  | f => mret f
  end.

(** [a / b] on two [int]s: the exact quotient rounded once. *)
Definition int_truediv (a b : Z) : pyexn + spec_float :=
  match a, b with
  | _, 0 => raise ZeroDivisionError
  | 0, _ => mret (S754_zero (b <? 0))
  | _, _ =>
      match SFdiv 53 1024 (S754_finite (a <? 0) (Z.to_pos (Z.abs a)) 0)
                          (S754_finite (b <? 0) (Z.to_pos (Z.abs b)) 0) with
      | S754_infinity _ => raise OverflowError
      | f => mret f
      end
  end.

(** [x / y] on two [float]s *)
Definition float_truediv (x y : spec_float) : pyexn + spec_float :=
  match y with
  | S754_zero _ => raise ZeroDivisionError
  | _ => mret (SFdiv 53 1024 x y)
  end.

(** [x / y]: true division; an [int] operand next to a [float] is
    converted first. *)
Definition truediv (x y : pyval) : pyexn + spec_float :=
  match x, y with
  | VInt a, VInt b => int_truediv a b
  | VInt a, VFloat g => f ← float_of_int a; float_truediv f g
  | VFloat f, VInt b => g ← float_of_int b; float_truediv f g
  | VFloat f, VFloat g => float_truediv f g
  | _, _ => raise TypeError
  end.

(** [x * n] for a [float] [x] and an [int] [n] *)
Definition float_mul_int (x : spec_float) (n : Z) : pyexn + spec_float :=
  g ← float_of_int n; mret (SFmul 53 1024 x g).

(** [int(x)] for a [float]: truncation towards zero. *)
Definition int_of_float (x : spec_float) : pyexn + Z :=
  match x with
  | S754_nan => raise ValueError
  | S754_infinity _ => raise OverflowError
  | S754_zero _ => mret 0
  | S754_finite s m e =>
      mret (cond_Zopp s (match e with
                         | Zneg p => Z.shiftr (Zpos m) (Zpos p)
                         | _ => Z.shiftl (Zpos m) e
                         end))
  end.

(** *** Dictionaries *)

(** [d[k]] *)
Definition getitem (d : gmap string pyval) (k : string) : pyexn + pyval :=
  match d !! k with
  | Some v => mret v
  | None => raise KeyError
  end.

(** [d.get(k, default)] and [d.get(k)] *)
Definition get_default (d : gmap string pyval) (k : string) (default : pyval) : pyval :=
  match d !! k with
  | Some v => v
  | None => default
  end.

Definition get (d : gmap string pyval) (k : string) : pyval := get_default d k VNone.

(** Truth value of [d] where [d] is a dictionary or [None]. *)
Definition truthy_dict (d : option (gmap string pyval)) : bool :=
  match d with
  | Some m => negb (bool_decide (m = ∅))
  | None => false
  end.

(** *** [datetime.timedelta] *)

Section Timedelta.

(** [str(datetime.timedelta(seconds=x))] for a [float] [x]: the
    microsecond rounding of the library is not modelled. *)
Variable str_timedelta_float : spec_float -> pyexn + string.

(** [str(datetime.timedelta(seconds=n))] for an [int] [n]: normalised to
    days and seconds of the day, printed as [H:MM:SS] after the days. *)
Definition str_timedelta_int (n : Z) : pyexn + string :=
  let days := n / 86400 in
  let seconds := n mod 86400 in
  if 999999999 <? Z.abs days then raise OverflowError
  else
    let mm := seconds / 60 in
    let ss := seconds mod 60 in
    let hh := mm / 60 in
    let mm := mm mod 60 in
    let s := str_of_int hh +:+ ":" +:+ fmt_02d mm +:+ ":" +:+ fmt_02d ss in
    mret (if days =? 0 then s
          else str_of_int days +:+ " day" +:+
               (if Z.abs days =? 1 then "" else "s") +:+ ", " +:+ s).

Definition str_timedelta (seconds : pyval) : pyexn + string :=
  match seconds with
  | VInt n => str_timedelta_int n
  | VFloat x => str_timedelta_float x
  | VNone | VStr _ => raise TypeError
  end.

End Timedelta.

(** *** More built-ins: [str.lower], the [,] format, [configparser] *)

(** [s.lower()] *)
Definition lower_char (c : ascii) : ascii :=
  let n := N_of_ascii c in
  if ((65 <=? n) && (n <=? 90))%N then ascii_of_N (n + 32) else c.

Fixpoint lower (s : string) : string :=
  match s with
  | String c s' => String (lower_char c) (lower s')
  | EmptyString => EmptyString
  end.

(** A comma before every group of three digits, counted from the right. *)
Fixpoint group_thousands (digits : string) : string :=
  match digits with
  | EmptyString => EmptyString
  | String c rest =>
      let n := String.length rest in
      String c (if (0 <? n)%nat && (n mod 3 =? 0)%nat
                then "," +:+ group_thousands rest
                else group_thousands rest)
  end.

(** [f'{n:,}'] for an [int] *)
Definition format_int_comma (n : Z) : string :=
  if n <? 0 then "-" +:+ group_thousands (str_of_int (- n))
  else group_thousands (str_of_int n).

(** [f'{v:,}']; the digits of a [float] are left to [format_float_comma]. *)
Definition format_comma (format_float_comma : spec_float -> string) (v : pyval)
    : pyexn + string :=
  match v with
  | VInt n => mret (format_int_comma n)
  | VFloat x => mret (format_float_comma x)
  | VStr _ => raise ValueError
  | VNone => raise TypeError
  end.

(** [RawConfigParser._convert_to_boolean]: the eight words of
    [BOOLEAN_STATES], in any case; [ValueError] on anything else. *)
Definition convert_to_boolean (value : string) : pyexn + bool :=
  let v := lower value in
  if bool_decide (v ∈ ["1"; "yes"; "true"; "on"]) then mret true
  else if bool_decide (v ∈ ["0"; "no"; "false"; "off"]) then mret false
  else raise ValueError.

(** [settings.get(option, fallback)] and [settings.getboolean(option,
    fallback)] on a section proxy, the section seen as the map of its
    options (those of [DEFAULT] included). *)
Definition SectionProxy_get (settings : gmap string string) (option fallback : string)
    : string :=
  default fallback (settings !! option).

Definition SectionProxy_getboolean (settings : gmap string string) (option : string)
    (fallback : bool) : pyexn + bool :=
  match settings !! option with
  | Some value => convert_to_boolean value
  | None => mret fallback
  end.

(** [str(b)] for a [bool] *)
Definition str_of_bool (b : bool) : string := if b then "True" else "False".

End Py.
Export Py.

(** ** The part of Qt's [QUrl] the program reads *)

Record QUrl_t := { isValid : bool; host : string }.

(** ** What [pathlib] answers *)

Inductive is_dir_outcome :=
| is_dir_returns (b : bool)
| is_dir_raises (e : string).

Inductive mkdir_outcome :=
| mkdir_done
| mkdir_OSError (e : string)
| mkdir_raises (e : string).

(** ** class YtdlpWorker *)

Module YtdlpWorker.

(** The signals the download path emits ([pyqtSignal] class attributes).
    [info_fetched], [info_error], [thumbnail_loaded] and [thumbnail_error]
    belong to the fetch operations and are emitted by neither
    [_progress_hook] nor [download_video].  [progress_update] is declared
    [pyqtSignal(int)] (line 27) and carries a C [int]: the value a slot
    receives, after the conversion [emit_int]. *)
Inductive signal :=
| log_message (message type : string)
| progress_update (percent : Z)
| download_complete
| download_error (message : string)
| operation_finished.

(** The argument of a [pyqtSignal(int)] on its way to the slots: PyQt reads
    the Python [int] as a C [long long], refusing what does not fit 64 bits,
    and narrows it to the 32-bit C [int] of the signal, keeping the low 32
    bits in two's complement. *)
Definition c_int (n : Z) : Z := (n + 2 ^ 31) mod 2 ^ 32 - 2 ^ 31.

Definition emit_int (n : Z) : pyexn + Z :=
  if (- 2 ^ 63 <=? n) && (n <? 2 ^ 63) then mret (c_int n)
  else raise SignalArgumentError.

(** [_progress_hook(self, d)], lines 40-50: the signals emitted, in order,
    or the exception raised. *)
Definition _progress_hook (d : gmap string pyval) : pyexn + list signal :=
  status ← getitem d "status";
  if eq_str status "downloading" then
    let total_bytes := py_or (get d "total_bytes") (get d "total_bytes_estimate") in
    if truthy total_bytes then
      q ← truediv (get_default d "downloaded_bytes" (VInt 0)) total_bytes;
      percent ← float_mul_int q 100;
      n ← int_of_float percent;
      v ← emit_int n;
      mret [progress_update v]
    else mret []
  else if eq_str status "finished" then
    mret [progress_update 100;
          log_message "Download finished. Processing file(s)..." "info"]
  else if eq_str status "error" then
    mret [download_error "yt-dlp encountered an error during download or post-processing."]
  else mret [].

(** Entries of the ['postprocessors'] list. *)
Inductive postprocessor :=
| FFmpegExtractAudio (preferredcodec preferredquality : string)
| FFmpegMetadata
| EmbedThumbnail.

(** The [ydl_opts] dictionary of [download_video].  ['progress_hooks'] is
    always [[self._progress_hook]] and is left implicit; ['postprocessors']
    is [None] when the key is not set. *)
Record ydl_opts := {
  format : string;
  outtmpl : string;
  noplaylist : bool;
  merge_output_format : option string;
  nocheckcertificate : bool;
  postprocessors : option (list postprocessor)
}.

(** What [yt_dlp.YoutubeDL(ydl_opts)] and [ydl.download([url])] can raise:
    [yt_dlp.utils.DownloadError], another [Exception], or a
    [BaseException] that is no [Exception]; each with its [str]. *)
Inductive ydl_exn :=
| DownloadError (e : string)
| OtherException (e : string)
| NonException (e : string).

(** One terminating yt-dlp session, seen from the program: it calls the
    progress hook any number of times, is told whether the hook raised, and
    finally returns or raises. *)
Inductive ydl_run :=
| ydl_return
| ydl_raise (e : ydl_exn)
| ydl_hook (d : gmap string pyval) (k : pyexn + unit -> ydl_run).

(** What the worker does that the outside can see, in order. *)
Inductive wevent :=
| Emit (s : signal)
| YoutubeDL_download (opts : ydl_opts) (urls : list string).

(** The session run against [_progress_hook]. *)
Fixpoint run_hooks (r : ydl_run) : list wevent * option ydl_exn :=
  match r with
  | ydl_return => ([], None)
  | ydl_raise e => ([], Some e)
  | ydl_hook d k =>
      match _progress_hook d with
      | inr sigs =>
          let '(t, o) := run_hooks (k (inr ())) in (map Emit sigs ++ t, o)
      | inl e => run_hooks (k (inl e))
      end
  end.

Section Worker.

(** [os.path.join] of the platform. *)
Variable os_path_join : string -> string -> string.

(** The yt-dlp session that [ydl_opts] and the URL list give rise to. *)
Variable ydl : ydl_opts -> list string -> ydl_run.

(** [download_video], lines 76-132: the trace of the call, and the
    exception that leaves it, if any. *)
Definition download_video (url output_path file_format quality : string)
    (is_playlist use_custom_filename : bool) (filename_template : string)
    (embed_metadata : bool) (video_info : option (gmap string pyval))
    : list wevent * option ydl_exn :=
  (* lines 79-94 *)
  let '(log_quality, format_selector) :=
    if String.eqb file_format "mp3" then
      ([], "bestaudio/best")
    else if String.eqb quality "Best" then
      ([], "bestvideo*+bestaudio/best")
    else
      let height := replace_del "p" quality in
      match int_of_str height with
      | Some height_int =>
          ([], "bestvideo[height<=" +:+ str_of_int height_int +:+ "]+bestaudio/best")
      | None =>
          ([Emit (log_message ("Invalid quality selected: " +:+ quality +:+
                               ". Falling back to 'Best'.") "warning")],
           "bestvideo*+bestaudio/best")
      end in
  (* lines 97-98 *)
  let outtmpl :=
    if use_custom_filename && negb (String.eqb (strip filename_template) "")
    then filename_template else "%(title)s.%(ext)s" in
  let ydl_outtmpl := os_path_join output_path outtmpl in
  (* lines 109-118 *)
  let postprocessors0 :=
    if String.eqb file_format "mp3"
    then [FFmpegExtractAudio "mp3" "192"] else [] in
  let '(log_embed, postprocessors) :=
    if embed_metadata then
      if truthy_dict video_info && truthy (get (default ∅ video_info) "thumbnail") then
        ([Emit (log_message "Attempting to embed thumbnail..." "info")],
         postprocessors0 ++ [FFmpegMetadata] ++ [EmbedThumbnail])
      else
        ([Emit (log_message "Warning: Cannot embed thumbnail as no video info or thumbnail URL was available." "warning")],
         postprocessors0 ++ [FFmpegMetadata])
    else ([], postprocessors0) in
  (* lines 100-107, 119-120 *)
  let ydl_opts := {|
    format := format_selector;
    outtmpl := ydl_outtmpl;
    noplaylist := negb is_playlist;
    merge_output_format :=
      if String.eqb file_format "mp3" then None else Some file_format;
    nocheckcertificate := true;
    postprocessors :=
      match postprocessors with [] => None | _ => Some postprocessors end
  |} in
  (* lines 122-124 *)
  let '(hooks, outcome) := run_hooks (ydl ydl_opts [url]) in
  let body :=
    log_quality ++ log_embed ++
    [Emit (log_message ("Starting download of " +:+ upper file_format +:+ "...") "info");
     YoutubeDL_download ydl_opts [url]] ++ hooks in
  (* lines 125-132 *)
  match outcome with
  | None =>
      (body ++ [Emit download_complete] ++ [Emit operation_finished], None)
  | Some (DownloadError e) =>
      (body ++ [Emit (download_error ("Download error: " +:+ e +:+ String "010"
          "Possible issues: Invalid URL, geo-restriction, or missing FFmpeg/dependencies."))]
        ++ [Emit operation_finished], None)
  | Some (OtherException e) =>
      (body ++ [Emit (download_error ("An unexpected error occurred: " +:+ e))]
        ++ [Emit operation_finished], None)
  | Some (NonException e) =>
      (body ++ [Emit operation_finished], Some (NonException e))
  end.

End Worker.

(** *** The fetch operations *)

(** The signals [fetch_video_info] emits: [info_fetched], [info_error] and
    [operation_finished] (here [info_operation_finished]). *)
Inductive info_signal :=
| info_fetched (info : gmap string pyval)
| info_error (message : string)
| info_operation_finished.

(** What [fetch_video_info] does that the outside can see: a signal, or the
    call [ydl.extract_info(url, download=False)] under the fixed options of
    lines 55-64. *)
Inductive info_event :=
| Emit_info (s : info_signal)
| YoutubeDL_extract_info (url : string).

(** The signals [download_thumbnail] emits: [thumbnail_loaded] with the
    handle of the pixmap, [thumbnail_error], and [log_message] (here
    [thumbnail_log_message]). *)
Inductive thumbnail_signal :=
| thumbnail_loaded (pixmap : positive)
| thumbnail_error
| thumbnail_log_message (message type : string).

Section WorkerFetch.

(** [ydl.extract_info(url, download=False)]: the metadata, or what it
    raises. *)
Variable extract_info : string -> ydl_exn + gmap string pyval.

(** [urllib.request.urlopen(url, timeout=10)] and [u.read()]: the bytes, or
    the [str] of the exception raised. *)
Variable urlopen_read : pyval -> string + string.

(** [QImage.fromData(raw_data)]: the image, [None] when [isNull()]; and the
    pixmap of the image scaled into 160 x 90. *)
Variable QImage_fromData : string -> option positive.
Variable scaled_pixmap : positive -> positive.

(** [fetch_video_info], lines 52-74.  The flag [_is_fetching_info] is
    written and never read, and is left out. *)
Definition fetch_video_info (url : string) : list info_event * option ydl_exn :=
  match extract_info url with
  | inr info =>
      ([YoutubeDL_extract_info url; Emit_info (info_fetched info)]
         ++ [Emit_info info_operation_finished], None)
  | inl (DownloadError e) =>
      ([YoutubeDL_extract_info url;
        Emit_info (info_error ("Could not fetch info: " +:+ e +:+ String "010"
                               "Check URL or network connection."))]
         ++ [Emit_info info_operation_finished], None)
  | inl (OtherException e) =>
      ([YoutubeDL_extract_info url;
        Emit_info (info_error ("An unexpected error occurred during info fetch: " +:+ e))]
         ++ [Emit_info info_operation_finished], None)
  | inl (NonException e) =>
      ([YoutubeDL_extract_info url] ++ [Emit_info info_operation_finished],
       Some (NonException e))
  end.

(** [download_thumbnail], lines 134-152 *)
Definition download_thumbnail (url : pyval) : list thumbnail_signal :=
  let failed (e : string) :=
    [thumbnail_log_message ("Failed to load thumbnail: " +:+ e) "error";
     thumbnail_error] in
  match urlopen_read url with
  | inl e => failed e
  | inr raw_data =>
      match QImage_fromData raw_data with
      | None => failed "Failed to load image data."
      | Some image =>
          [thumbnail_loaded (scaled_pixmap image);
           thumbnail_log_message "Thumbnail loaded." "info"]
      end
  end.

End WorkerFetch.

End YtdlpWorker.

(** ** class YouTubeDownloaderApp *)

Module YouTubeDownloaderApp.

(** The labels of the preview group. [thumbnail_label_pixmap] is an opaque
    image handle; [None] is the null [QPixmap()]. *)
Record Preview := {
  title_label : string;
  uploader_label : string;
  duration_label : string;
  views_label : string;
  thumbnail_label_pixmap : option positive;
  thumbnail_label_text : string
}.

(** The [setEnabled] flags.  [widgets] is the flag of every widget that
    [set_ui_state] treats alike (the download button among them); the other
    three are set again by the two [toggle_] methods. *)
Record Enabled := {
  widgets : bool;
  quality_dropdown_enabled : bool;
  quality_label_enabled : bool;
  filename_template_entry_enabled : bool
}.

(** The attributes of the window that the modelled methods read or write.
    [_fetch_info_timer] is the single-shot [QTimer]: [None] when inactive,
    otherwise the milliseconds left. *)
Record App := {
  url_entry : string;
  output_entry : string;
  format_dropdown : string;
  quality_dropdown : string;
  playlist_check : bool;
  custom_filename_check : bool;
  filename_template_entry : string;
  embed_metadata_check : bool;
  current_video_info : option (gmap string pyval);
  preview : Preview;
  enabled : Enabled;
  progress_bar : Z;
  progress_label : string;
  log_text : list string;
  _fetch_info_timer : option nat
}.

Definition with_url_entry (x : string) (st : App) : App :=
  {| url_entry := x; output_entry := output_entry st;
     format_dropdown := format_dropdown st; quality_dropdown := quality_dropdown st;
     playlist_check := playlist_check st; custom_filename_check := custom_filename_check st;
     filename_template_entry := filename_template_entry st;
     embed_metadata_check := embed_metadata_check st;
     current_video_info := current_video_info st; preview := preview st;
     enabled := enabled st; progress_bar := progress_bar st;
     progress_label := progress_label st; log_text := log_text st;
     _fetch_info_timer := _fetch_info_timer st |}.

Definition with_current_video_info (x : option (gmap string pyval)) (st : App) : App :=
  {| url_entry := url_entry st; output_entry := output_entry st;
     format_dropdown := format_dropdown st; quality_dropdown := quality_dropdown st;
     playlist_check := playlist_check st; custom_filename_check := custom_filename_check st;
     filename_template_entry := filename_template_entry st;
     embed_metadata_check := embed_metadata_check st;
     current_video_info := x; preview := preview st;
     enabled := enabled st; progress_bar := progress_bar st;
     progress_label := progress_label st; log_text := log_text st;
     _fetch_info_timer := _fetch_info_timer st |}.

Definition with_preview (x : Preview) (st : App) : App :=
  {| url_entry := url_entry st; output_entry := output_entry st;
     format_dropdown := format_dropdown st; quality_dropdown := quality_dropdown st;
     playlist_check := playlist_check st; custom_filename_check := custom_filename_check st;
     filename_template_entry := filename_template_entry st;
     embed_metadata_check := embed_metadata_check st;
     current_video_info := current_video_info st; preview := x;
     enabled := enabled st; progress_bar := progress_bar st;
     progress_label := progress_label st; log_text := log_text st;
     _fetch_info_timer := _fetch_info_timer st |}.

Definition with_enabled (x : Enabled) (st : App) : App :=
  {| url_entry := url_entry st; output_entry := output_entry st;
     format_dropdown := format_dropdown st; quality_dropdown := quality_dropdown st;
     playlist_check := playlist_check st; custom_filename_check := custom_filename_check st;
     filename_template_entry := filename_template_entry st;
     embed_metadata_check := embed_metadata_check st;
     current_video_info := current_video_info st; preview := preview st;
     enabled := x; progress_bar := progress_bar st;
     progress_label := progress_label st; log_text := log_text st;
     _fetch_info_timer := _fetch_info_timer st |}.

Definition with_progress (bar : Z) (label : string) (st : App) : App :=
  {| url_entry := url_entry st; output_entry := output_entry st;
     format_dropdown := format_dropdown st; quality_dropdown := quality_dropdown st;
     playlist_check := playlist_check st; custom_filename_check := custom_filename_check st;
     filename_template_entry := filename_template_entry st;
     embed_metadata_check := embed_metadata_check st;
     current_video_info := current_video_info st; preview := preview st;
     enabled := enabled st; progress_bar := bar;
     progress_label := label; log_text := log_text st;
     _fetch_info_timer := _fetch_info_timer st |}.

Definition with_log_text (x : list string) (st : App) : App :=
  {| url_entry := url_entry st; output_entry := output_entry st;
     format_dropdown := format_dropdown st; quality_dropdown := quality_dropdown st;
     playlist_check := playlist_check st; custom_filename_check := custom_filename_check st;
     filename_template_entry := filename_template_entry st;
     embed_metadata_check := embed_metadata_check st;
     current_video_info := current_video_info st; preview := preview st;
     enabled := enabled st; progress_bar := progress_bar st;
     progress_label := progress_label st; log_text := x;
     _fetch_info_timer := _fetch_info_timer st |}.

Definition with_fetch_info_timer (x : option nat) (st : App) : App :=
  {| url_entry := url_entry st; output_entry := output_entry st;
     format_dropdown := format_dropdown st; quality_dropdown := quality_dropdown st;
     playlist_check := playlist_check st; custom_filename_check := custom_filename_check st;
     filename_template_entry := filename_template_entry st;
     embed_metadata_check := embed_metadata_check st;
     current_video_info := current_video_info st; preview := preview st;
     enabled := enabled st; progress_bar := progress_bar st;
     progress_label := progress_label st; log_text := log_text st;
     _fetch_info_timer := x |}.

(** What a slot does outside the window's attributes, in order: a modal
    error box, a directory creation ([mkdir(parents=True, exist_ok=True)]),
    a call of a worker method, a call of yt-dlp; and, as the last thing it
    does, letting an exception escape that nothing in the program
    handles. *)
Inductive effect :=
| QMessageBox_critical (title text : string)
| Path_mkdir (path : string)
| exception_leaves_slot (e : string)
| ytdlp_worker_fetch_video_info (url : string)
| ytdlp_worker_download_video (url output_path file_format quality : string)
    (is_playlist use_custom_filename : bool) (filename_template : string)
    (embed_metadata : bool) (video_info : option (gmap string pyval))
| ydl_download (opts : YtdlpWorker.ydl_opts) (urls : list string).

(** [log_message(self, message, message_type)], lines 616-626 *)
Definition log_message (message message_type : string) (st : App) : App :=
  let line :=
    if String.eqb message_type "error" then
      "<span style='color:red;'>" +:+ message +:+ "</span>"
    else if String.eqb message_type "warning" then
      "<span style='color:orange;'>" +:+ message +:+ "</span>"
    else message in
  with_log_text (log_text st ++ [line]) st.

(** [QProgressBar.setValue] with the default range 0..100: a value outside
    the range leaves the bar as it is. *)
Definition QProgressBar_setValue (value current : Z) : Z :=
  if (0 <=? value) && (value <=? 100) then value else current.

(** [_update_progress(self, percent)], lines 628-630 *)
Definition _update_progress (percent : Z) (st : App) : App :=
  with_progress (QProgressBar_setValue percent (progress_bar st))
                ("[ " +:+ str_of_int percent +:+ "% ]") st.

(** [_on_download_complete(self)], lines 632-635; the check mark of the
    message is written in UTF-8. *)
Definition _on_download_complete (st : App) : App :=
  let st := log_message (String "226" (String "156" (String "133"
              " Download complete and file processed successfully!"))) "info" st in
  with_progress (QProgressBar_setValue 100 (progress_bar st)) "[ 100% ]" st.

(** [_on_download_error(self, message)], lines 637-639 *)
Definition _on_download_error (message : string) (st : App) : App * list effect :=
  (log_message ("ERROR: " +:+ message) "error" st,
   [QMessageBox_critical "Download Error" message]).

(** [toggle_quality_dropdown(self)], lines 670-673 *)
Definition toggle_quality_dropdown (st : App) : App :=
  let is_mp3 := String.eqb (format_dropdown st) "mp3" in
  with_enabled {| widgets := widgets (enabled st);
                  quality_dropdown_enabled := negb is_mp3;
                  quality_label_enabled := negb is_mp3;
                  filename_template_entry_enabled :=
                    filename_template_entry_enabled (enabled st) |} st.

(** [toggle_filename_template_entry(self)], lines 675-677 *)
Definition toggle_filename_template_entry (st : App) : App :=
  let state := custom_filename_check st in
  with_enabled {| widgets := widgets (enabled st);
                  quality_dropdown_enabled := quality_dropdown_enabled (enabled st);
                  quality_label_enabled := quality_label_enabled (enabled st);
                  filename_template_entry_enabled := state |} st.

(** [clear_preview(self)], lines 697-704 *)
Definition clear_preview (st : App) : App :=
  with_current_video_info None
    (with_preview {| title_label := "N/A"; uploader_label := "N/A";
                     duration_label := "N/A"; views_label := "N/A";
                     thumbnail_label_pixmap := None;
                     thumbnail_label_text := "No thumbnail available" |} st).

(** [set_ui_state(self, state)], lines 706-717: every child widget but the
    log, the progress bar and its label gets [enable]; then the two toggles
    run. *)
Definition set_ui_state (state : string) (st : App) : App :=
  let enable := String.eqb state "enabled" in
  let st := with_enabled {| widgets := enable;
                            quality_dropdown_enabled := enable;
                            quality_label_enabled := enable;
                            filename_template_entry_enabled := enable |} st in
  let st := toggle_quality_dropdown st in
  toggle_filename_template_entry st.

(** The connections of lines 192-195 and 200: the slot run for a signal. *)
Definition deliver (s : YtdlpWorker.signal) (st : App) : App * list effect :=
  match s with
  | YtdlpWorker.log_message message type => (log_message message type st, [])
  | YtdlpWorker.progress_update percent => (_update_progress percent st, [])
  | YtdlpWorker.download_complete => (_on_download_complete st, [])
  | YtdlpWorker.download_error message => _on_download_error message st
  | YtdlpWorker.operation_finished => (set_ui_state "enabled" st, [])
  end.

(** A worker trace played against the window, every signal delivered as it
    is emitted. *)
Fixpoint deliver_all (t : list YtdlpWorker.wevent) (st : App) : App * list effect :=
  match t with
  | [] => (st, [])
  | YtdlpWorker.Emit s :: t' =>
      let '(st1, e1) := deliver s st in
      let '(st2, e2) := deliver_all t' st1 in
      (st2, e1 ++ e2)
  | YtdlpWorker.YoutubeDL_download opts urls :: t' =>
      let '(st2, e2) := deliver_all t' st in
      (st2, ydl_download opts urls :: e2)
  end.

(** Lines 738-748 of [_display_video_info]: the text given to
    [self.duration_label.setText]. *)
Definition _display_video_info_duration
    (str_timedelta_float : spec_float -> pyexn + string)
    (info : gmap string pyval) : pyexn + string :=
  let duration_seconds := get info "duration" in
  match duration_seconds with
  | VNone => mret "N/A"
  | _ =>
      duration_str ← str_timedelta str_timedelta_float duration_seconds;
      let parts := split ":" duration_str in
      mret (if (length parts =? 3)%nat && String.eqb (hd "" parts) "0"
            then join ":" (tl parts) else duration_str)
  end.

Section Slots.

(** [QUrl(url)] of Qt. *)
Variable QUrl : string -> QUrl_t.

(** [Path(p).is_dir()]: the answer, or the exception it raises (an
    [OSError] other than "no such file", as for a name that is too long or
    a parent that may not be searched), with its [str].
    [Path(p).mkdir(parents=True, exist_ok=True)]: done, an [OSError], or an
    exception that is no [OSError] (a [ValueError] for a NUL character),
    each with its [str]. *)
Variable Path_is_dir : string -> is_dir_outcome.
Variable Path_mkdir_result : string -> mkdir_outcome.

Definition youtube_domains : list string :=
  ["youtube.com"; "www.youtube.com"; "m.youtube.com"; "youtu.be"; "www.youtu.be"].

(** [_is_valid_youtube_url(self, url)], lines 436-446 *)
Definition _is_valid_youtube_url (url : string) : bool :=
  let qurl := QUrl url in
  if negb (isValid qurl) then false
  else
    bool_decide (host qurl ∈ youtube_domains) ||
    existsb (fun domain => endswith (host qurl) ("." +:+ domain))
            (List.filter (fun domain => negb (startswith domain "www")) youtube_domains).

(** [_schedule_fetch_info(self)], lines 427-434; [QTimer.start] arms the
    timer with its interval of 700 ms, [QTimer.stop] disarms it. *)
Definition _schedule_fetch_info (st : App) : App :=
  let url_text := strip (url_entry st) in
  if _is_valid_youtube_url url_text then
    with_fetch_info_timer (Some 700%nat) st
  else
    clear_preview (with_fetch_info_timer None st).

(** The user edits the URL field: the text is replaced and [textChanged]
    runs [_schedule_fetch_info] (line 419). *)
Definition url_entry_textChanged (text : string) (st : App) : App :=
  _schedule_fetch_info (with_url_entry text st).

(** [_start_fetch_info_worker(self)], lines 719-729 *)
Definition _start_fetch_info_worker (st : App) : App * list effect :=
  let url := strip (url_entry st) in
  if negb (_is_valid_youtube_url url) ||
     (truthy_dict (current_video_info st) &&
      eq_str (get_default (default ∅ (current_video_info st)) "webpage_url" (VStr "")) url)
  then (st, [])
  else
    let st := clear_preview st in
    let st := log_message ("Fetching info for: " +:+ url +:+ "...") "info" st in
    let st := set_ui_state "disabled" st in
    (st, [ytdlp_worker_fetch_video_info url]).

(** [ms] milliseconds pass in the event loop: the single-shot timer counts
    down and, when it runs out, is disarmed and runs its [timeout] slot
    (line 423). *)
Definition QTimer_elapse (ms : nat) (st : App) : App * list effect :=
  match _fetch_info_timer st with
  | None => (st, [])
  | Some remaining =>
      if (ms <? remaining)%nat then (with_fetch_info_timer (Some (remaining - ms)%nat) st, [])
      else _start_fetch_info_worker (with_fetch_info_timer None st)
  end.

(** [_start_download_worker(self)], lines 794-834 *)
Definition _start_download_worker (st : App) : App * list effect :=
  let url := strip (url_entry st) in
  let output_path := strip (output_entry st) in
  if String.eqb url "" then
    (st, [QMessageBox_critical "Error" "Please enter a YouTube URL!"])
  else if String.eqb output_path "" then
    (st, [QMessageBox_critical "Error" "Please select an output path!"])
  else if negb (_is_valid_youtube_url url) then
    (st, [QMessageBox_critical "Error"
            "The entered URL does not appear to be a valid YouTube URL."])
  else
    let proceed (st : App) (done : list effect) : App * list effect :=
      let st := log_message ("Preparing download for: " +:+ url) "info" st in
      let st := set_ui_state "disabled" st in
      let st := with_progress (QProgressBar_setValue 0 (progress_bar st)) "[  0% ]" st in
      (st, done ++ [ytdlp_worker_download_video url output_path (format_dropdown st)
                      (quality_dropdown st) (playlist_check st)
                      (custom_filename_check st) (filename_template_entry st)
                      (embed_metadata_check st) (current_video_info st)]) in
    match Path_is_dir output_path with
    | is_dir_raises e => (st, [exception_leaves_slot e])
    | is_dir_returns true => proceed st []
    | is_dir_returns false =>
        match Path_mkdir_result output_path with
        | mkdir_done =>
            proceed (log_message ("Created output directory: " +:+ output_path) "info" st)
                    [Path_mkdir output_path]
        | mkdir_OSError e =>
            (log_message ("Error creating directory: " +:+ e) "error" st,
             [Path_mkdir output_path;
              QMessageBox_critical "Error" ("Could not create output directory: " +:+ e)])
        | mkdir_raises e =>
            (st, [Path_mkdir output_path; exception_leaves_slot e])
        end
    end.

End Slots.

Section Operation.

Variable os_path_join : string -> string -> string.
Variable ydl : YtdlpWorker.ydl_opts -> list string -> YtdlpWorker.ydl_run.

(** The call of line 824 carried out: [download_video] runs and its
    signals reach the slots one by one. *)
Definition perform (e : effect) (st : App) : App * list effect :=
  match e with
  | ytdlp_worker_download_video url output_path file_format quality is_playlist
      use_custom_filename filename_template embed_metadata video_info =>
      deliver_all (YtdlpWorker.download_video os_path_join ydl url output_path
                     file_format quality is_playlist use_custom_filename
                     filename_template embed_metadata video_info).1 st
  | _ => (st, [e])
  end.

Fixpoint perform_all (es : list effect) (st : App) : App * list effect :=
  match es with
  | [] => (st, [])
  | e :: es' =>
      let '(st1, e1) := perform e st in
      let '(st2, e2) := perform_all es' st1 in
      (st2, e1 ++ e2)
  end.

End Operation.

(** *** The slots of the fetch operations, and the settings *)

Definition with_output_entry (x : string) (st : App) : App :=
  {| url_entry := url_entry st; output_entry := x;
     format_dropdown := format_dropdown st;
     quality_dropdown := quality_dropdown st;
     playlist_check := playlist_check st;
     custom_filename_check := custom_filename_check st;
     filename_template_entry := filename_template_entry st;
     embed_metadata_check := embed_metadata_check st;
     current_video_info := current_video_info st; preview := preview st;
     enabled := enabled st; progress_bar := progress_bar st;
     progress_label := progress_label st; log_text := log_text st;
     _fetch_info_timer := _fetch_info_timer st |}.

Definition with_format_dropdown (x : string) (st : App) : App :=
  {| url_entry := url_entry st; output_entry := output_entry st;
     format_dropdown := x; quality_dropdown := quality_dropdown st;
     playlist_check := playlist_check st;
     custom_filename_check := custom_filename_check st;
     filename_template_entry := filename_template_entry st;
     embed_metadata_check := embed_metadata_check st;
     current_video_info := current_video_info st; preview := preview st;
     enabled := enabled st; progress_bar := progress_bar st;
     progress_label := progress_label st; log_text := log_text st;
     _fetch_info_timer := _fetch_info_timer st |}.

Definition with_quality_dropdown (x : string) (st : App) : App :=
  {| url_entry := url_entry st; output_entry := output_entry st;
     format_dropdown := format_dropdown st; quality_dropdown := x;
     playlist_check := playlist_check st;
     custom_filename_check := custom_filename_check st;
     filename_template_entry := filename_template_entry st;
     embed_metadata_check := embed_metadata_check st;
     current_video_info := current_video_info st; preview := preview st;
     enabled := enabled st; progress_bar := progress_bar st;
     progress_label := progress_label st; log_text := log_text st;
     _fetch_info_timer := _fetch_info_timer st |}.

Definition with_playlist_check (x : bool) (st : App) : App :=
  {| url_entry := url_entry st; output_entry := output_entry st;
     format_dropdown := format_dropdown st;
     quality_dropdown := quality_dropdown st; playlist_check := x;
     custom_filename_check := custom_filename_check st;
     filename_template_entry := filename_template_entry st;
     embed_metadata_check := embed_metadata_check st;
     current_video_info := current_video_info st; preview := preview st;
     enabled := enabled st; progress_bar := progress_bar st;
     progress_label := progress_label st; log_text := log_text st;
     _fetch_info_timer := _fetch_info_timer st |}.

Definition with_custom_filename_check (x : bool) (st : App) : App :=
  {| url_entry := url_entry st; output_entry := output_entry st;
     format_dropdown := format_dropdown st;
     quality_dropdown := quality_dropdown st;
     playlist_check := playlist_check st; custom_filename_check := x;
     filename_template_entry := filename_template_entry st;
     embed_metadata_check := embed_metadata_check st;
     current_video_info := current_video_info st; preview := preview st;
     enabled := enabled st; progress_bar := progress_bar st;
     progress_label := progress_label st; log_text := log_text st;
     _fetch_info_timer := _fetch_info_timer st |}.

Definition with_filename_template_entry (x : string) (st : App) : App :=
  {| url_entry := url_entry st; output_entry := output_entry st;
     format_dropdown := format_dropdown st;
     quality_dropdown := quality_dropdown st;
     playlist_check := playlist_check st;
     custom_filename_check := custom_filename_check st;
     filename_template_entry := x;
     embed_metadata_check := embed_metadata_check st;
     current_video_info := current_video_info st; preview := preview st;
     enabled := enabled st; progress_bar := progress_bar st;
     progress_label := progress_label st; log_text := log_text st;
     _fetch_info_timer := _fetch_info_timer st |}.

Definition with_embed_metadata_check (x : bool) (st : App) : App :=
  {| url_entry := url_entry st; output_entry := output_entry st;
     format_dropdown := format_dropdown st;
     quality_dropdown := quality_dropdown st;
     playlist_check := playlist_check st;
     custom_filename_check := custom_filename_check st;
     filename_template_entry := filename_template_entry st;
     embed_metadata_check := x;
     current_video_info := current_video_info st; preview := preview st;
     enabled := enabled st; progress_bar := progress_bar st;
     progress_label := progress_label st; log_text := log_text st;
     _fetch_info_timer := _fetch_info_timer st |}.

Definition preview_with_title_label (x : string) (p : Preview) : Preview :=
  {| title_label := x; uploader_label := uploader_label p; duration_label := duration_label p;
     views_label := views_label p; thumbnail_label_pixmap := thumbnail_label_pixmap p; thumbnail_label_text := thumbnail_label_text p |}.

Definition preview_with_uploader_label (x : string) (p : Preview) : Preview :=
  {| title_label := title_label p; uploader_label := x; duration_label := duration_label p;
     views_label := views_label p; thumbnail_label_pixmap := thumbnail_label_pixmap p; thumbnail_label_text := thumbnail_label_text p |}.

Definition preview_with_duration_label (x : string) (p : Preview) : Preview :=
  {| title_label := title_label p; uploader_label := uploader_label p; duration_label := x;
     views_label := views_label p; thumbnail_label_pixmap := thumbnail_label_pixmap p; thumbnail_label_text := thumbnail_label_text p |}.

Definition preview_with_views_label (x : string) (p : Preview) : Preview :=
  {| title_label := title_label p; uploader_label := uploader_label p; duration_label := duration_label p;
     views_label := x; thumbnail_label_pixmap := thumbnail_label_pixmap p; thumbnail_label_text := thumbnail_label_text p |}.

(** The items of the two combo boxes, lines 495 and 505. *)
Definition formats : list string := ["mp4"; "mkv"; "webm"; "mp3"].
Definition qualities : list string :=
  ["Best"; "1080p"; "720p"; "480p"; "360p"; "240p"; "144p"].

(** [QComboBox.setCurrentText] on a combo box that cannot be edited: the
    item of that text becomes current if there is one, else nothing
    happens. *)
Definition QComboBox_setCurrentText (items : list string) (text current : string)
    : string :=
  if bool_decide (text ∈ items) then text else current.

(** A [QLabel] holds a text or a pixmap.  [setText] does nothing when the
    label already has that text, and otherwise replaces the content;
    [setPixmap] replaces the content, leaving the text empty.  Here on the
    thumbnail label. *)
Definition QLabel_setText (text : string) (p : Preview) : Preview :=
  if String.eqb (thumbnail_label_text p) text then p
  else {| title_label := title_label p; uploader_label := uploader_label p;
          duration_label := duration_label p; views_label := views_label p;
          thumbnail_label_pixmap := None; thumbnail_label_text := text |}.

Definition QLabel_setPixmap (pixmap : option positive) (p : Preview) : Preview :=
  {| title_label := title_label p; uploader_label := uploader_label p;
     duration_label := duration_label p; views_label := views_label p;
     thumbnail_label_pixmap := pixmap; thumbnail_label_text := "" |}.

(** The [str] argument of a Qt method: PyQt raises [TypeError] on anything
    that is no [str]. *)
Definition qt_str (v : pyval) : pyexn + string :=
  match v with
  | VStr s => mret s
  | _ => raise TypeError
  end.

(** [_on_info_error(self, message)], lines 641-644 *)
Definition _on_info_error (message : string) (st : App) : App * list effect :=
  (clear_preview (log_message ("ERROR: " +:+ message) "error" st),
   [QMessageBox_critical "Info Fetch Error" message]).

(** [_display_thumbnail(self, pixmap)], lines 646-648 *)
Definition _display_thumbnail (pixmap : positive) (st : App) : App :=
  with_preview (QLabel_setText "" (QLabel_setPixmap (Some pixmap) (preview st))) st.

(** [_on_thumbnail_error(self)], lines 650-652 *)
Definition _on_thumbnail_error (st : App) : App :=
  with_preview
    (QLabel_setPixmap None (QLabel_setText "Thumbnail failed to load" (preview st))) st.

(** The connections of lines 192, 198 and 199 for the signals of
    [download_thumbnail]. *)
Definition deliver_thumbnail (s : YtdlpWorker.thumbnail_signal) (st : App) : App :=
  match s with
  | YtdlpWorker.thumbnail_loaded pixmap => _display_thumbnail pixmap st
  | YtdlpWorker.thumbnail_error => _on_thumbnail_error st
  | YtdlpWorker.thumbnail_log_message message type => log_message message type st
  end.

(** [_update_available_qualities(self, info)], lines 766-791: the combo box
    is emptied and filled with [qualities] again, then the current text is
    set. *)
Definition _update_available_qualities (info : gmap string pyval) (st : App) : App :=
  if negb (truthy_dict (Some info)) || negb (bool_decide (is_Some (info !! "formats")))
  then
    let st := log_message
      "Could not get format details for quality dropdown. Using default qualities."
      "warning" st in
    with_quality_dropdown (QComboBox_setCurrentText qualities "Best" "Best") st
  else
    let current_text := quality_dropdown st in
    let st :=
      if bool_decide (current_text ∈ qualities)
      then with_quality_dropdown
             (QComboBox_setCurrentText qualities current_text "Best") st
      else with_quality_dropdown (QComboBox_setCurrentText qualities "Best" "Best") st in
    log_message ("Available video qualities are set to standard options: " +:+
                 join ", " qualities) "info" st.

(** [toggle_quality_dropdown] as the slot of [currentIndexChanged] (line
    499) and [toggle_filename_template_entry] as the slot of [stateChanged]
    (line 551): the widget is set, and the slot runs if that changed it. *)
Definition format_dropdown_setCurrentText (text : string) (st : App) : App :=
  let new := QComboBox_setCurrentText formats text (format_dropdown st) in
  if String.eqb new (format_dropdown st) then st
  else toggle_quality_dropdown (with_format_dropdown new st).

Definition custom_filename_check_setChecked (b : bool) (st : App) : App :=
  if Bool.eqb b (custom_filename_check st) then st
  else toggle_filename_template_entry (with_custom_filename_check b st).

(** [browse_output_path], lines 654-658; [directory] is what the dialog
    returns, the empty string when it is cancelled. *)
Definition browse_output_path (directory : string) (st : App) : App :=
  if negb (String.eqb directory "") then
    log_message ("Save location set to: " +:+ directory) "info"
      (with_output_entry directory st)
  else st.

(** [_load_settings], lines 214-225, after [self.config.read]: [sections]
    are the sections of the file, [DEFAULT] apart; [script_dir] is
    [str(self.script_dir)]. *)
Definition _load_settings (script_dir : string)
    (sections : gmap string (gmap string string))
    : gmap string (gmap string string) :=
  if bool_decide (is_Some (sections !! "SETTINGS")) then sections
  else
    <["SETTINGS" :=
        <["output_path" := script_dir]>
        (<["selected_format" := "mp4"]>
        (<["selected_quality" := "Best"]>
        (<["playlist_var" := "False"]>
        (<["custom_filename_var" := "False"]>
        (<["filename_template" := "%(title)s.%(ext)s"]>
        (<["embed_metadata_var" := "False"]> ∅))))))]> sections.

(** [self.config['SETTINGS']] as the proxy shows it: the options of the
    section, then those of [DEFAULT]. *)
Definition settings_of (defaults : gmap string string)
    (sections : gmap string (gmap string string)) : gmap string string :=
  default ∅ (sections !! "SETTINGS") ∪ defaults.

(** The in-memory part of [_save_settings], lines 228-234: the options
    written into the section. *)
Definition _save_settings (settings : gmap string string) (st : App)
    : gmap string string :=
  <["embed_metadata_var" := str_of_bool (embed_metadata_check st)]>
  (<["filename_template" := filename_template_entry st]>
  (<["custom_filename_var" := str_of_bool (custom_filename_check st)]>
  (<["playlist_var" := str_of_bool (playlist_check st)]>
  (<["selected_quality" := quality_dropdown st]>
  (<["selected_format" := format_dropdown st]>
  (<["output_path" := output_entry st]> settings)))))).

(** [_load_initial_ui_settings], lines 337-351 *)
Definition _load_initial_ui_settings (script_dir : string)
    (settings : gmap string string) (st : App) : pyexn + App :=
  let st := with_output_entry (SectionProxy_get settings "output_path" script_dir) st in
  let st := with_filename_template_entry
              (SectionProxy_get settings "filename_template" "%(title)s.%(ext)s") st in
  let st := format_dropdown_setCurrentText
              (SectionProxy_get settings "selected_format" "mp4") st in
  let st := with_quality_dropdown
              (QComboBox_setCurrentText qualities
                 (SectionProxy_get settings "selected_quality" "Best")
                 (quality_dropdown st)) st in
  playlist ← SectionProxy_getboolean settings "playlist_var" false;
  let st := with_playlist_check playlist st in
  custom ← SectionProxy_getboolean settings "custom_filename_var" false;
  let st := custom_filename_check_setChecked custom st in
  embed ← SectionProxy_getboolean settings "embed_metadata_var" false;
  let st := with_embed_metadata_check embed st in
  let st := toggle_quality_dropdown st in
  let st := toggle_filename_template_entry st in
  let st := log_message "Welcome! Provide a URL and select your options." "info" st in
  let st := log_message "Note: Merging video and audio requires FFmpeg." "info" st in
  let st := log_message
    "Note: Embedding metadata requires FFmpeg and Mutagen (recommended)." "info" st in
  mret (log_message
    "Note: 'yt-dlp' warnings about 'Falling back to generic n function search' and 'nsig extraction failed' are common and often do not prevent successful downloads. If you experience issues, ensure 'yt-dlp' is up to date."
    "warning" st).

Section FetchSlots.

Variable QUrl : string -> QUrl_t.
Variable str_timedelta_float : spec_float -> pyexn + string.
Variable format_float_comma : spec_float -> string.
Variable extract_info : string -> YtdlpWorker.ydl_exn + gmap string pyval.
Variable urlopen_read : pyval -> string + string.
Variable QImage_fromData : string -> option positive.
Variable scaled_pixmap : positive -> positive.

(** [_display_video_info(self, info)], lines 731-763.  The call of
    [download_thumbnail] on line 757 is carried out in place, its signals
    reaching their slots as they are emitted. *)
Definition _display_video_info (info : gmap string pyval) (st : App) : pyexn + App :=
  let st := with_current_video_info (Some info) st in
  let st := log_message "Video info fetched successfully." "info" st in
  title ← qt_str (get_default info "title" (VStr "N/A"));
  let st := with_preview (preview_with_title_label title (preview st)) st in
  uploader ← qt_str (get_default info "uploader" (VStr "N/A"));
  let st := with_preview (preview_with_uploader_label uploader (preview st)) st in
  duration_str ← _display_video_info_duration str_timedelta_float info;
  let st := with_preview (preview_with_duration_label duration_str (preview st)) st in
  let views := get info "view_count" in
  views_str ← match views with
              | VNone => mret "N/A"
              | _ => format_comma format_float_comma views
              end;
  let st := with_preview (preview_with_views_label views_str (preview st)) st in
  let thumbnail_url := get info "thumbnail" in
  let st :=
    if truthy thumbnail_url then
      let st := log_message "Downloading thumbnail..." "info" st in
      foldl (fun st s => deliver_thumbnail s st) st
        (YtdlpWorker.download_thumbnail urlopen_read QImage_fromData scaled_pixmap
           thumbnail_url)
    else
      let st := with_preview
        (QLabel_setText "No thumbnail available" (QLabel_setPixmap None (preview st)))
        st in
      log_message "No thumbnail URL found." "warning" st in
  mret (_update_available_qualities info st).

(** The connections of lines 196, 197 and 200 for the signals of
    [fetch_video_info].  An exception that leaves a slot ends the
    program. *)
Definition deliver_info (s : YtdlpWorker.info_signal) (st : App)
    : pyexn + (App * list effect) :=
  match s with
  | YtdlpWorker.info_fetched info =>
      st' ← _display_video_info info st; mret (st', [])
  | YtdlpWorker.info_error message => mret (_on_info_error message st)
  | YtdlpWorker.info_operation_finished => mret (set_ui_state "enabled" st, [])
  end.

Fixpoint deliver_info_all (t : list YtdlpWorker.info_event) (st : App)
    : pyexn + (App * list effect) :=
  match t with
  | [] => mret (st, [])
  | YtdlpWorker.Emit_info s :: t' =>
      '(st1, e1) ← deliver_info s st;
      '(st2, e2) ← deliver_info_all t' st1;
      mret (st2, e1 ++ e2)
  | YtdlpWorker.YoutubeDL_extract_info _ :: t' => deliver_info_all t' st
  end.

(** The debounce timer runs out: the slot of line 423 runs, and the call of
    line 729, if it is made, is carried out.  [None] when the program ends
    on an exception that nothing handles: one that leaves a slot, or one
    that leaves [fetch_video_info]. *)
Definition fetch_operation (st : App) : option (App * list effect) :=
  let '(st1, e1) := _start_fetch_info_worker QUrl st in
  match e1 with
  | [ytdlp_worker_fetch_video_info url] =>
      let '(t, unhandled) := YtdlpWorker.fetch_video_info extract_info url in
      match deliver_info_all t st1, unhandled with
      | inr (st2, e2), None => Some (st2, e1 ++ e2)
      | _, _ => None
      end
  | _ => Some (st1, e1)
  end.

(** [clear_fields], lines 679-695; [settings] is [self.config['SETTINGS']].
    [QLineEdit.clear] emits [textChanged] when there was a text. *)
Definition clear_fields (script_dir : string) (settings : gmap string string)
    (st : App) : pyexn + App :=
  let st := if String.eqb (url_entry st) "" then st
            else _schedule_fetch_info QUrl (with_url_entry "" st) in
  let st := with_output_entry script_dir st in
  let st := format_dropdown_setCurrentText
              (SectionProxy_get settings "selected_format" "mp4") st in
  let st := with_quality_dropdown
              (QComboBox_setCurrentText qualities
                 (SectionProxy_get settings "selected_quality" "Best")
                 (quality_dropdown st)) st in
  playlist ← SectionProxy_getboolean settings "playlist_var" false;
  let st := with_playlist_check playlist st in
  custom ← SectionProxy_getboolean settings "custom_filename_var" false;
  let st := custom_filename_check_setChecked custom st in
  let st := with_filename_template_entry
              (SectionProxy_get settings "filename_template" "%(title)s.%(ext)s") st in
  embed ← SectionProxy_getboolean settings "embed_metadata_var" false;
  let st := with_embed_metadata_check embed st in
  let st := toggle_quality_dropdown st in
  let st := toggle_filename_template_entry st in
  let st := clear_preview st in
  let st := with_log_text [] st in
  let st := with_progress (QProgressBar_setValue 0 (progress_bar st)) "[  0% ]" st in
  mret (log_message "Fields cleared. Ready for a new download." "info" st).

End FetchSlots.

End YouTubeDownloaderApp.

(** * Specification-side definitions *)

Import YouTubeDownloaderApp.

(** The hosts the specification allows, written out: one of its five
    hosts, or a host that ends with a dot followed by one of them. *)
Definition is_youtube_host (h : string) : Prop :=
  h = "youtube.com" ∨ h = "www.youtube.com" ∨ h = "m.youtube.com" ∨
  h = "youtu.be" ∨ h = "www.youtu.be".

Definition host_allowed (h : string) : Prop :=
  is_youtube_host h ∨ ∃ domain p, is_youtube_host domain ∧ h = p +:+ "." +:+ domain.

(** Qt's [QUrl] on the texts of the examples.  The empty text is no valid
    URL.  A text that starts with [https://] or [http://] and goes on with
    a lower-case host name (no user, no port) and then nothing, a path, a
    query or a fragment is a valid URL of that host.  A text without a
    scheme, such as a single word, is a valid relative reference and has
    no host. *)
Fixpoint authority (s : string) : string :=
  match s with
  | EmptyString => EmptyString
  | String c s' =>
      if Ascii.eqb c "/" || Ascii.eqb c "?" || Ascii.eqb c "#" then EmptyString
      else String c (authority s')
  end.

Definition QUrl_sample (url : string) : QUrl_t :=
  if String.eqb url "" then {| isValid := false; host := "" |}
  else if startswith url "https://" then
    {| isValid := true; host := authority (String.substring 8 (String.length url) url) |}
  else if startswith url "http://" then
    {| isValid := true; host := authority (String.substring 7 (String.length url) url) |}
  else {| isValid := true; host := "" |}.

(** The percentage as the specification words it: the floor of
    [100 * downloaded / total], clamped to the range 0..100. *)
Definition spec_percent (downloaded total : Z) : Z :=
  Z.max 0 (Z.min 100 (100 * downloaded / total)).

(** A float that is not negative and at most [B]: a zero, or [m * 2^e] with
    [e <= 0] and [m <= B * 2^(-e)]. *)
Definition float_at_most (B : Z) (x : spec_float) : Prop :=
  match x with
  | S754_zero _ => True
  | S754_finite false m e => e <= 0 ∧ Z.pos m <= B * 2 ^ (- e)
  | _ => False
  end.

(** A callback dictionary [{'status': status, 'downloaded_bytes': downloaded,
    'total_bytes': total}]. *)
Definition progress_dict (status : string) (downloaded total : Z) : gmap string pyval :=
  <["status" := VStr status]>
    (<["downloaded_bytes" := VInt downloaded]> (<["total_bytes" := VInt total]> ∅)).

(** The yt-dlp calls of a worker trace, with their options. *)
Definition passed_opts (t : list YtdlpWorker.wevent)
    : list (YtdlpWorker.ydl_opts * list string) :=
  omap (fun ev => match ev with
                  | YtdlpWorker.YoutubeDL_download opts urls => Some (opts, urls)
                  | YtdlpWorker.Emit _ => None
                  end) t.

(** The signals a progress hook can emit. *)
Definition hook_signal (s : YtdlpWorker.signal) : bool :=
  match s with
  | YtdlpWorker.log_message _ _
  | YtdlpWorker.progress_update _
  | YtdlpWorker.download_error _ => true
  | YtdlpWorker.download_complete | YtdlpWorker.operation_finished => false
  end.

Definition hook_event (ev : YtdlpWorker.wevent) : bool :=
  match ev with
  | YtdlpWorker.Emit s => hook_signal s
  | YtdlpWorker.YoutubeDL_download _ _ => false
  end.

(** The two signals that report how the download ended. *)
Definition final_event (ev : YtdlpWorker.wevent) : Prop :=
  ev = YtdlpWorker.Emit YtdlpWorker.download_complete ∨
  ∃ message, ev = YtdlpWorker.Emit (YtdlpWorker.download_error message).

(** A path join and two yt-dlp sessions to run the examples with: one that
    reports progress twice and returns, one that raises. *)
Definition join_sample (a b : string) : string := a +:+ "/" +:+ b.

Definition ydl_sample (_ : YtdlpWorker.ydl_opts) (_ : list string) : YtdlpWorker.ydl_run :=
  YtdlpWorker.ydl_hook (progress_dict "downloading" 50 200) (fun _ =>
  YtdlpWorker.ydl_hook (progress_dict "finished" 200 200) (fun _ =>
  YtdlpWorker.ydl_return)).

Definition ydl_failing (_ : YtdlpWorker.ydl_opts) (_ : list string) : YtdlpWorker.ydl_run :=
  YtdlpWorker.ydl_hook (progress_dict "error" 0 0) (fun _ =>
  YtdlpWorker.ydl_raise (YtdlpWorker.DownloadError "ERROR: Video unavailable")).

(** A duration of [n] seconds as the specification words it: hours,
    minutes and seconds as [H:MM:SS], minutes and seconds always in two
    decimal digits, the hours in one or two and dropped when they are 0.
    The digits are written out here, on their own. *)
Definition decimal_digit (d : Z) : ascii := ascii_of_N (48 + Z.to_N d).

Definition two_digits (n : Z) : string :=
  String (decimal_digit (n / 10)) (String (decimal_digit (n mod 10)) EmptyString).

Definition hour_digits (h : Z) : string :=
  if h <? 10 then String (decimal_digit h) EmptyString else two_digits h.

Definition spec_duration_display (n : Z) : string :=
  let h := n / 3600 in
  let m := (n mod 3600) / 60 in
  let s := n mod 60 in
  if h =? 0 then two_digits m +:+ ":" +:+ two_digits s
  else hour_digits h +:+ ":" +:+ two_digits m +:+ ":" +:+ two_digits s.

(** [c] does not occur in [s]. *)
Fixpoint free_of (c : ascii) (s : string) : bool :=
  match s with
  | EmptyString => true
  | String a s' => negb (Ascii.eqb a c) && free_of c s'
  end.

(** Stand-in for the float case of [str(timedelta)], which no example
    reaches. *)
Definition no_float_durations (_ : spec_float) : pyexn + string := inl TypeError.

(** The effect is a call of the worker's [download_video]. *)
Definition is_download_call (e : effect) : bool :=
  match e with
  | ytdlp_worker_download_video _ _ _ _ _ _ _ _ _ => true
  | _ => false
  end.

(** The preview as [clear_preview] leaves it. *)
Definition cleared_preview : Preview :=
  {| title_label := "N/A"; uploader_label := "N/A"; duration_label := "N/A";
     views_label := "N/A"; thumbnail_label_pixmap := None;
     thumbnail_label_text := "No thumbnail available" |}.

(** A window at rest with a URL typed in, for the examples; [app_loaded]
    has the metadata of that URL on display. *)
Definition app_sample : App :=
  {| url_entry := "https://m.youtube.com/watch?v=x";
     output_entry := "/home/user/Downloads";
     format_dropdown := "mp4";
     quality_dropdown := "720p";
     playlist_check := false;
     custom_filename_check := false;
     filename_template_entry := "%(title)s.%(ext)s";
     embed_metadata_check := false;
     current_video_info := None;
     preview := cleared_preview;
     enabled := {| widgets := true; quality_dropdown_enabled := true;
                   quality_label_enabled := true;
                   filename_template_entry_enabled := false |};
     progress_bar := 0;
     progress_label := "[  0% ]";
     log_text := [];
     _fetch_info_timer := None |}.

Definition app_loaded : App :=
  with_preview
    {| title_label := "A video"; uploader_label := "A channel";
       duration_label := "01:23"; views_label := "1,234";
       thumbnail_label_pixmap := Some 1%positive; thumbnail_label_text := "" |}
    (with_current_video_info
       (Some (<["webpage_url" := VStr "https://m.youtube.com/watch?v=x"]>
                (<["title" := VStr "A video"]> ∅)))
       app_sample).

(** File systems for the examples: one in which every directory exists;
    one in which none exists, with a [mkdir] that succeeds and one that is
    denied; and one in which none exists and a name of more than 255
    characters is refused by the system ([ENAMETOOLONG]). *)
Definition every_dir_exists (_ : string) : is_dir_outcome := is_dir_returns true.
Definition no_dir_exists (_ : string) : is_dir_outcome := is_dir_returns false.
Definition mkdir_succeeds (_ : string) : mkdir_outcome := mkdir_done.
Definition mkdir_denied (path : string) : mkdir_outcome :=
  mkdir_OSError ("[Errno 13] Permission denied: '" +:+ path +:+ "'").

Definition name_too_long (path : string) : bool :=
  existsb (fun name => (255 <? String.length name)%nat) (split "/" path).

Definition is_dir_name_max (path : string) : is_dir_outcome :=
  if name_too_long path
  then is_dir_raises ("[Errno 36] File name too long: '" +:+ path +:+ "'")
  else is_dir_returns false.

(** The sample window with an output directory of 300 characters. *)
(** A [mkdir] that refuses a path with a null character, as [os.mkdir]
    does with [ValueError], and creates every other directory. *)
Definition mkdir_null_byte (path : string) : mkdir_outcome :=
  if existsb (Ascii.eqb "000"%char) (list_ascii_of_string path)
  then mkdir_raises "embedded null byte"
  else mkdir_done.

Definition app_null_path : App :=
  with_output_entry ("/tmp/a" +:+ String "000" "b") app_sample.

Definition long_name : string := string_of_list_ascii (repeat "x"%char 300).

Definition app_long_path : App := with_output_entry ("/tmp/" +:+ long_name) app_sample.

(** * Lemmas on the Python built-ins *)

Lemma append_cons (c : ascii) (a b : string) :
  String c a +:+ b = String c (a +:+ b).
Proof. reflexivity. Qed.

Lemma append_nil_l (a : string) : "" +:+ a = a.
Proof. reflexivity. Qed.

Lemma append_assoc (a b c : string) : (a +:+ b) +:+ c = a +:+ (b +:+ c).
Proof.
  induction a as [|x a IH]; [reflexivity|].
  rewrite !append_cons. f_equal. exact IH.
Qed.

Lemma endswith_iff (s suffix : string) :
  endswith s suffix = true ↔ ∃ p, s = p +:+ suffix.
Proof.
  induction s as [|c s IH]; cbn [endswith].
  - rewrite orb_false_r, String.eqb_eq. split.
    + intros <-. by exists "".
    + intros [[|c p] H]; [done | discriminate].
  - rewrite orb_true_iff, String.eqb_eq, IH. split.
    + intros [<- | [p ->]]; [by exists "" | by exists (String c p)].
    + intros [[|c' p] H]; [by left | right].
      rewrite append_cons in H. injection H as -> ->. by exists p.
Qed.

Lemma endswith_app (p q suffix : string) :
  endswith q suffix = true → endswith (p +:+ q) suffix = true.
Proof.
  rewrite !endswith_iff. intros [r ->]. exists (p +:+ r).
  by rewrite append_assoc.
Qed.

(** * The URL validator *)

Lemma youtube_domains_without_www :
  List.filter (fun domain => negb (startswith domain "www")) youtube_domains =
  ["youtube.com"; "m.youtube.com"; "youtu.be"].
Proof. reflexivity. Qed.

Section Validator.

Variable QUrl : string -> QUrl_t.

Lemma valid_url_unfold (url : string) :
  _is_valid_youtube_url QUrl url = true ↔
  isValid (QUrl url) = true ∧
  (host (QUrl url) ∈ youtube_domains ∨
   endswith (host (QUrl url)) ".youtube.com" = true ∨
   endswith (host (QUrl url)) ".m.youtube.com" = true ∨
   endswith (host (QUrl url)) ".youtu.be" = true).
Proof.
  unfold _is_valid_youtube_url. rewrite youtube_domains_without_www.
  destruct (isValid (QUrl url)); cbn [negb existsb]; [|split; [discriminate | intros [? _]; discriminate]].
  change ("." +:+ "youtube.com") with ".youtube.com".
  change ("." +:+ "m.youtube.com") with ".m.youtube.com".
  change ("." +:+ "youtu.be") with ".youtu.be".
  rewrite orb_false_r, !orb_true_iff, bool_decide_eq_true. tauto.
Qed.

(** C1. The validator accepts exactly the strings that [QUrl] parses as
    valid with a host that is one of the five YouTube hosts or ends with a
    dot followed by one of them; a URL whose host is "youtube.com.evil.com"
    is rejected, and a valid URL whose host is "m.youtube.com" (such as
    "https://m.youtube.com/watch?v=x") is accepted. *)
Theorem url_validator_accepts_youtube_hosts (s : string) :
  (_is_valid_youtube_url QUrl s = true ↔
     isValid (QUrl s) = true ∧ host_allowed (host (QUrl s))) ∧
  (host (QUrl s) = "youtube.com.evil.com" → _is_valid_youtube_url QUrl s = false) ∧
  (isValid (QUrl s) = true → host (QUrl s) = "m.youtube.com" →
     _is_valid_youtube_url QUrl s = true).
Proof.
  split; [|split].
  - rewrite valid_url_unfold. unfold host_allowed, is_youtube_host, youtube_domains.
    rewrite !elem_of_cons, elem_of_nil.
    split; intros [Hv H]; (split; [done|]).
    + destruct H as [H | [H | [H | H]]]; [left; tauto | right ..];
        apply endswith_iff in H as [p ->].
      * exists "youtube.com", p. tauto.
      * exists "m.youtube.com", p. tauto.
      * exists "youtu.be", p. tauto.
    + destruct H as [H | (domain & p & Hd & ->)]; [left; tauto | right].
      destruct Hd as [-> | [-> | [-> | [-> | ->]]]].
      * left. apply endswith_iff. by exists p.
      * left. apply (endswith_app p ".www.youtube.com"). reflexivity.
      * right; left. apply endswith_iff. by exists p.
      * right; right. apply endswith_iff. by exists p.
      * right; right. apply (endswith_app p ".www.youtu.be"). reflexivity.
  - intros Hh. unfold _is_valid_youtube_url. rewrite Hh.
    destruct (isValid (QUrl s)); reflexivity.
  - intros Hv Hh. unfold _is_valid_youtube_url. rewrite Hv, Hh. reflexivity.
Qed.

End Validator.

Lemma url_validator_examples :
  _is_valid_youtube_url QUrl_sample "https://m.youtube.com/watch?v=x" = true ∧
  _is_valid_youtube_url QUrl_sample "https://youtube.com.evil.com/watch?v=x" = false ∧
  _is_valid_youtube_url QUrl_sample "https://youtube.com/watch?v=x" = true ∧
  _is_valid_youtube_url QUrl_sample "https://www.youtube.com/watch?v=x" = true ∧
  _is_valid_youtube_url QUrl_sample "https://youtu.be/x" = true ∧
  _is_valid_youtube_url QUrl_sample "https://www.youtu.be/x" = true ∧
  _is_valid_youtube_url QUrl_sample "https://music.youtube.com/watch?v=x" = true.
Proof.
  split; [|split; [|split; [|split; [|split; [|split]]]]].
  - apply (url_validator_accepts_youtube_hosts QUrl_sample
             "https://m.youtube.com/watch?v=x"); reflexivity.
  - apply (url_validator_accepts_youtube_hosts QUrl_sample
             "https://youtube.com.evil.com/watch?v=x"); reflexivity.
  - apply (proj1 (url_validator_accepts_youtube_hosts QUrl_sample
                    "https://youtube.com/watch?v=x")).
    split; [reflexivity|]. left. left. reflexivity.
  - apply (proj1 (url_validator_accepts_youtube_hosts QUrl_sample
                    "https://www.youtube.com/watch?v=x")).
    split; [reflexivity|]. left. right; left. reflexivity.
  - apply (proj1 (url_validator_accepts_youtube_hosts QUrl_sample "https://youtu.be/x")).
    split; [reflexivity|]. left. do 3 right; left. reflexivity.
  - apply (proj1 (url_validator_accepts_youtube_hosts QUrl_sample "https://www.youtu.be/x")).
    split; [reflexivity|]. left. do 4 right. reflexivity.
  - apply (proj1 (url_validator_accepts_youtube_hosts QUrl_sample
                    "https://music.youtube.com/watch?v=x")).
    split; [reflexivity|]. right. exists "youtube.com", "music".
    split; [left|]; reflexivity.
Defined.

(** * Progress translation *)

Import YtdlpWorker.

Lemma getitem_Some (d : gmap string pyval) (k : string) (v : pyval) :
  d !! k = Some v → getitem d k = inr v.
Proof. unfold getitem. by intros ->. Qed.

(** ** Rounding to binary64 keeps an upper bound *)

Lemma iter_pos_nat {A} (f : A → A) (p : positive) (x : A) :
  SpecFloat.iter_pos f p x = Nat.iter (Pos.to_nat p) f x.
Proof.
  revert x. induction p as [p IH | p IH |]; intros x; cbn [SpecFloat.iter_pos].
  - rewrite !IH, Pos2Nat.inj_xI.
    replace (S (2 * Pos.to_nat p))%nat with (Pos.to_nat p + S (Pos.to_nat p))%nat by lia.
    by rewrite Nat.iter_add, Nat.iter_succ_r.
  - rewrite !IH, Pos2Nat.inj_xO.
    replace (2 * Pos.to_nat p)%nat with (Pos.to_nat p + Pos.to_nat p)%nat by lia.
    by rewrite Nat.iter_add.
  - reflexivity.
Qed.

Lemma shr_1_nonneg (m : Z) (r s : bool) :
  0 <= m →
  shr_1 {| shr_m := m; shr_r := r; shr_s := s |} =
  {| shr_m := m / 2; shr_r := Z.odd m; shr_s := r || s |}.
Proof.
  intros Hm. rewrite <- Z.div2_div.
  destruct m as [|[p|p|]|p]; try reflexivity. lia.
Qed.

(** [k] right shifts of a mantissa that is not negative: the mantissa is
    divided by [2^k], and a shift that loses no bit of an exact number
    stays exact. *)
Lemma shr_iter (k : nat) (m : Z) (r s : bool) :
  0 <= m →
  shr_m (Nat.iter k shr_1 {| shr_m := m; shr_r := r; shr_s := s |}) = m / 2 ^ Z.of_nat k ∧
  (r = false → s = false → m mod 2 ^ Z.of_nat k = 0 →
   shr_r (Nat.iter k shr_1 {| shr_m := m; shr_r := r; shr_s := s |}) = false ∧
   shr_s (Nat.iter k shr_1 {| shr_m := m; shr_r := r; shr_s := s |}) = false).
Proof.
  intros Hm. induction k as [|k [IHm IHx]].
  - cbn [Nat.iter nat_rect shr_m shr_r shr_s]. change (2 ^ Z.of_nat 0) with 1.
    rewrite Z.div_1_r. split; [reflexivity | by intros -> ->].
  - rewrite Nat.iter_succ.
    destruct (Nat.iter k shr_1 _) as [mk rk sk]. cbn [shr_m shr_r shr_s] in *.
    assert (Hmk : 0 <= mk) by (rewrite IHm; apply Z.div_pos; lia).
    rewrite (shr_1_nonneg _ _ _ Hmk). cbn [shr_m shr_r shr_s].
    rewrite Nat2Z.inj_succ, Z.pow_succ_r by lia.
    split.
    + rewrite IHm, Z.div_div by lia. f_equal. lia.
    + intros Hr Hs Hmod.
      assert (Hdiv : m = 2 ^ Z.of_nat k * (2 * (m / (2 * 2 ^ Z.of_nat k)))).
      { rewrite (Z.div_mod m (2 * 2 ^ Z.of_nat k)) at 1 by lia. rewrite Hmod. lia. }
      assert (Hk : m mod 2 ^ Z.of_nat k = 0).
      { rewrite Hdiv, Z.mul_comm. apply Z.mod_mul. lia. }
      destruct (IHx Hr Hs Hk) as [-> ->]. split; [|reflexivity].
      rewrite IHm, Hdiv, Z.mul_comm, Z.div_mul by lia.
      by rewrite Z.odd_mul.
Qed.

Lemma digits2_pos_size (p : positive) : digits2_pos p = Pos.size p.
Proof. induction p; cbn; by rewrite ?IHp. Qed.

Lemma Zdigits2_le (m k : Z) : 0 <= m → 0 <= k → m < 2 ^ k → Zdigits2 m <= k.
Proof.
  intros Hm Hk Hlt. destruct m as [|p|p]; [exact Hk | | lia].
  cbn [Zdigits2]. rewrite digits2_pos_size.
  assert (H := proj1 (Z.log2_lt_pow2 (Zpos p) k ltac:(lia)) Hlt).
  destruct p; cbn [Z.log2 Pos.size] in *; lia.
Qed.

Lemma shr_record_of_loc_m (m : Z) (l : location) : shr_m (shr_record_of_loc m l) = m.
Proof. by destruct l as [|[]]. Qed.

Lemma shr_fexp_bound (m e B : Z) (l : location) :
  0 <= m → e <= 0 → 0 < B < 2 ^ 53 → m <= B * 2 ^ (- e) →
  ∃ mrs e', shr_fexp 53 1024 m e l = (mrs, e') ∧
    e <= e' <= 0 ∧
    shr_m mrs = m / 2 ^ (e' - e) ∧
    (l = loc_Exact → m mod 2 ^ (e' - e) = 0 → loc_of_shr_record mrs = loc_Exact).
Proof.
  intros Hm He HB Hle. unfold shr_fexp, shr.
  assert (Hd : Zdigits2 m <= 53 - e).
  { apply Zdigits2_le; [lia | lia |].
    replace (53 - e) with (53 + - e) by lia. rewrite Z.pow_add_r by lia.
    assert (0 < 2 ^ (- e)) by (apply Z.pow_pos_nonneg; lia). nia. }
  destruct (fexp 53 1024 (Zdigits2 m + e) - e) as [|p|p] eqn:Hn.
  - eexists _, _. split; [reflexivity|]. rewrite Z.sub_diag, Z.div_1_r.
    split; [lia|]. split; [apply shr_record_of_loc_m|]. by intros -> _.
  - eexists _, _. split; [reflexivity|].
    assert (He' : e + Z.pos p <= 0).
    { rewrite <- Hn. unfold fexp, emin. lia. }
    replace (e + Z.pos p - e) with (Z.of_nat (Pos.to_nat p)) by lia.
    split; [lia|]. rewrite iter_pos_nat.
    destruct l as [|[]]; cbn [shr_record_of_loc];
      (split; [apply (shr_iter _ _ _ _ Hm)|]); try discriminate.
    intros _ Hmod.
    destruct (proj2 (shr_iter (Pos.to_nat p) m false false Hm) eq_refl eq_refl Hmod)
      as [Hr Hs].
    destruct (Nat.iter _ _ _) as [m' r' s']. cbn [shr_r shr_s] in *. by subst.
  - eexists _, _. split; [reflexivity|]. rewrite Z.sub_diag, Z.div_1_r.
    split; [lia|]. split; [apply shr_record_of_loc_m|]. by intros -> _.
Qed.

Lemma round_nearest_even_bounds (m : Z) (l : location) :
  m <= round_nearest_even m l <= m + 1.
Proof. destruct l as [|[]]; cbn [round_nearest_even]; try destruct (Z.even m); lia. Qed.

(** Rounding to nearest never crosses an integer bound below [2^53]: a
    number below [B], or an exact number at most [B], is rounded to a float
    at most [B]. *)
Lemma binary_round_aux_at_most (mx ex B : Z) (lx : location) :
  0 <= mx → ex <= 0 → 0 < B < 2 ^ 53 →
  mx + 1 <= B * 2 ^ (- ex) ∨ (lx = loc_Exact ∧ mx <= B * 2 ^ (- ex)) →
  float_at_most B (binary_round_aux 53 1024 false mx ex lx).
Proof.
  intros Hm He HB Hle. unfold binary_round_aux.
  destruct (shr_fexp_bound mx ex B lx Hm He HB ltac:(lia))
    as (mrs1 & e1 & -> & He1 & Hm1 & Hx1).
  set (m2 := round_nearest_even (shr_m mrs1) (loc_of_shr_record mrs1)).
  assert (Hpow : B * 2 ^ (- ex) = B * 2 ^ (- e1) * 2 ^ (e1 - ex)).
  { rewrite <- Z.mul_assoc, <- Z.pow_add_r by lia. do 2 f_equal. lia. }
  assert (Hp1 : 0 < 2 ^ (e1 - ex)) by (apply Z.pow_pos_nonneg; lia).
  assert (Hm1pos : 0 <= shr_m mrs1) by (rewrite Hm1; apply Z.div_pos; lia).
  assert (Hm2 : 0 <= m2 <= B * 2 ^ (- e1)).
  { pose proof (round_nearest_even_bounds (shr_m mrs1) (loc_of_shr_record mrs1)) as Hr.
    fold m2 in Hr. split; [lia|].
    destruct Hle as [Hlt | [-> Hle]].
    - assert (shr_m mrs1 < B * 2 ^ (- e1)); [|lia].
      rewrite Hm1. apply Z.div_lt_upper_bound; [lia|]. lia.
    - destruct (Z.eq_dec mx (B * 2 ^ (- ex))) as [Heq | Hne].
      + assert (Hmod : mx mod 2 ^ (e1 - ex) = 0).
        { rewrite Heq, Hpow. apply Z.mod_mul. lia. }
        unfold m2. rewrite (Hx1 eq_refl Hmod). cbn [round_nearest_even].
        rewrite Hm1, Heq, Hpow, Z.div_mul by lia. lia.
      + assert (shr_m mrs1 < B * 2 ^ (- e1)); [|lia].
        rewrite Hm1. apply Z.div_lt_upper_bound; [lia|]. lia. }
  destruct (shr_fexp_bound m2 e1 B loc_Exact ltac:(lia) ltac:(lia) HB ltac:(lia))
    as (mrs2 & e2 & -> & He2 & Hm3 & _).
  assert (Hpow2 : B * 2 ^ (- e1) = B * 2 ^ (- e2) * 2 ^ (e2 - e1)).
  { rewrite <- Z.mul_assoc, <- Z.pow_add_r by lia. do 2 f_equal. lia. }
  assert (Hp2 : 0 < 2 ^ (e2 - e1)) by (apply Z.pow_pos_nonneg; lia).
  assert (Hm3b : 0 <= shr_m mrs2 <= B * 2 ^ (- e2)).
  { rewrite Hm3. split; [apply Z.div_pos; lia|].
    apply Z.div_le_upper_bound; [lia|]. lia. }
  destruct (shr_m mrs2) as [|m3|m3]; [exact I | | lia].
  replace (e2 <=? 1024 - 53) with true by (symmetry; apply Z.leb_le; lia).
  cbn [float_at_most]. lia.
Qed.

Lemma div_eucl_div_mod (a b : Z) : Z.div_eucl a b = (a / b, a mod b).
Proof. unfold Z.div, Z.modulo. by destruct (Z.div_eucl a b). Qed.

Lemma new_location_zero (n : Z) : new_location n 0 = loc_Exact.
Proof. unfold new_location. by destruct (Z.even n). Qed.

(** The quotient of two positive [int]s, the first at most the second, is
    a float at most 1. *)
Lemma SFdiv_at_most_1 (a b : positive) :
  (a <= b)%positive →
  float_at_most 1 (SFdiv 53 1024 (S754_finite false a 0) (S754_finite false b 0)).
Proof.
  intros Hab. cbn [SFdiv xorb]. unfold SFdiv_core_binary.
  set (e' := Z.min _ _).
  assert (He' : e' <= 0) by (unfold e'; lia).
  set (m' := match 0 - 0 - e' with 0 => Z.pos a | Z.pos _ => _ | Z.neg _ => 0 end).
  assert (Hm' : m' = Z.pos a * 2 ^ (- e')).
  { unfold m'. destruct (0 - 0 - e') as [|p|p] eqn:Hs; [| |lia].
    - replace (- e') with 0 by lia. lia.
    - rewrite Z.shiftl_mul_pow2 by lia. do 2 f_equal. lia. }
  clearbody m'. subst m'. rewrite div_eucl_div_mod.
  assert (Hp : 0 < 2 ^ (- e')) by (apply Z.pow_pos_nonneg; lia).
  apply binary_round_aux_at_most; [apply Z.div_pos; lia | lia | lia |].
  rewrite Z.mul_1_l.
  destruct (Pos.eq_dec a b) as [-> | Hne].
  - right. rewrite Z.mul_comm, Z.mod_mul, Z.div_mul by lia.
    split; [apply new_location_zero | lia].
  - left. assert (Z.pos a * 2 ^ (- e') / Z.pos b < 2 ^ (- e')); [|lia].
    apply Z.div_lt_upper_bound; [lia|].
    assert (Z.pos a < Z.pos b) by lia. nia.
Qed.

Lemma int_truediv_at_most_1 (a b : Z) :
  0 <= a <= b → 0 < b → ∃ q, int_truediv a b = inr q ∧ float_at_most 1 q.
Proof.
  intros Ha Hb. unfold int_truediv.
  destruct b as [|b|b]; [lia | | lia].
  destruct a as [|a|a]; [by eexists | | lia].
  pose proof (SFdiv_at_most_1 a b ltac:(lia)) as H.
  change (Z.pos a <? 0) with false. change (Z.pos b <? 0) with false.
  change (Z.to_pos (Z.abs (Z.pos a))) with a. change (Z.to_pos (Z.abs (Z.pos b))) with b.
  destruct (SFdiv _ _ _ _) as [s| s| |s m e]; try done; by eexists.
Qed.

Lemma float_of_int_100 : float_of_int 100 = inr (S754_finite false 7036874417766400 (-46)).
Proof. vm_compute. reflexivity. Qed.

Lemma float_mul_100_at_most (q : spec_float) :
  float_at_most 1 q →
  ∃ p, float_mul_int q 100 = inr p ∧ float_at_most 100 p.
Proof.
  intros Hq. unfold float_mul_int. rewrite float_of_int_100.
  cbn [mbind pyexn_bind mret pyexn_ret].
  eexists. split; [reflexivity|].
  destruct q as [s|s| |[] m e]; try done. cbn [float_at_most] in Hq.
  cbn [SFmul xorb]. destruct Hq as [He Hm].
  apply binary_round_aux_at_most; [lia | lia | lia |].
  right. split; [done|].
  replace (- (e + -46)) with (- e + 46) by lia.
  rewrite Z.pow_add_r by lia.
  change (2 ^ 46) with 70368744177664.
  rewrite Pos2Z.inj_mul. nia.
Qed.

Lemma int_of_float_at_most (B : Z) (x : spec_float) :
  0 <= B → float_at_most B x → ∃ n, int_of_float x = inr n ∧ 0 <= n <= B.
Proof.
  intros HB Hx. destruct x as [s|s| |[] m e]; try done.
  - exists 0. split; [done | lia].
  - cbn [float_at_most] in Hx. destruct Hx as [He Hm].
    cbn [int_of_float cond_Zopp]. eexists. split; [reflexivity|].
    destruct e as [|p|p]; [| lia |].
    + rewrite Z.shiftl_0_r. change (2 ^ (- 0)) with 1 in Hm. lia.
    + rewrite Z.shiftr_div_pow2 by lia. change (- Z.neg p) with (Z.pos p) in Hm.
      assert (0 < 2 ^ Z.pos p) by (apply Z.pow_pos_nonneg; lia).
      split; [apply Z.div_pos; lia|].
      apply Z.div_le_upper_bound; lia.
Qed.

Lemma SFdiv_same (a : positive) :
  SFdiv 53 1024 (S754_finite false a 0) (S754_finite false a 0) =
  S754_finite false 4503599627370496 (-52).
Proof.
  cbn [SFdiv xorb]. unfold SFdiv_core_binary.
  replace (Zdigits2 (Z.pos a) + 0 - (Zdigits2 (Z.pos a) + 0)) with 0 by lia.
  change (Z.min (fexp 53 1024 0) (0 - 0)) with (-53).
  change (0 - 0 - -53) with 53. cbv beta iota zeta.
  rewrite Z.shiftl_mul_pow2 by lia. rewrite div_eucl_div_mod.
  rewrite Z.mul_comm, Z.mod_mul, Z.div_mul by lia.
  rewrite new_location_zero. vm_compute. reflexivity.
Qed.


(** [int((a / b) * 100)] for [int]s with [0 <= a <= b], [0 < b]: the three
    steps succeed and the result lies in 0..100. *)
Lemma percent_in_range (a b : Z) :
  0 <= a <= b → 0 < b →
  ∃ q p n, int_truediv a b = inr q ∧ float_mul_int q 100 = inr p ∧
           int_of_float p = inr n ∧ 0 <= n <= 100.
Proof.
  intros Ha Hb.
  destruct (int_truediv_at_most_1 a b Ha Hb) as (q & Hq & Hq1).
  destruct (float_mul_100_at_most q Hq1) as (p & Hp & Hp100).
  destruct (int_of_float_at_most 100 p ltac:(lia) Hp100) as (n & Hn & Hrange).
  by exists q, p, n.
Qed.

Lemma percent_complete (b : Z) :
  0 < b →
  ∃ q p, int_truediv b b = inr q ∧ float_mul_int q 100 = inr p ∧ int_of_float p = inr 100.
Proof.
  intros Hb. destruct b as [|b|b]; [lia | | lia]. unfold int_truediv.
  change (Z.pos b <? 0) with false. change (Z.to_pos (Z.abs (Z.pos b))) with b.
  rewrite SFdiv_same. eexists _, _. split; [reflexivity|]. split; vm_compute; reflexivity.
Qed.

Lemma percent_zero (b : Z) :
  0 < b →
  ∃ q p, int_truediv 0 b = inr q ∧ float_mul_int q 100 = inr p ∧ int_of_float p = inr 0.
Proof.
  intros Hb. destruct b as [|b|b]; [lia | | lia].
  eexists _, _. split; [reflexivity|]. split; vm_compute; reflexivity.
Qed.

(** ** Rounding to binary64 between two bounds *)

Lemma shr_fexp_spec (m e : Z) (l : location) :
  0 <= m →
  ∃ mrs e', shr_fexp 53 1024 m e l = (mrs, e') ∧
    e' = Z.max e (fexp 53 1024 (Zdigits2 m + e)) ∧
    shr_m mrs = m / 2 ^ (e' - e) ∧
    (l = loc_Exact → m mod 2 ^ (e' - e) = 0 → loc_of_shr_record mrs = loc_Exact).
Proof.
  intros Hm. unfold shr_fexp, shr.
  destruct (fexp 53 1024 (Zdigits2 m + e) - e) as [|p|p] eqn:Hn.
  - eexists _, _. split; [reflexivity|]. split; [lia|].
    rewrite Z.sub_diag, Z.div_1_r.
    split; [apply shr_record_of_loc_m|]. by intros -> _.
  - eexists _, _. split; [reflexivity|]. split; [lia|].
    replace (e + Z.pos p - e) with (Z.of_nat (Pos.to_nat p)) by lia.
    rewrite iter_pos_nat.
    destruct l as [|[]]; cbn [shr_record_of_loc];
      (split; [apply (shr_iter _ _ _ _ Hm)|]); try discriminate.
    intros _ Hmod.
    destruct (proj2 (shr_iter (Pos.to_nat p) m false false Hm) eq_refl eq_refl Hmod)
      as [Hr Hs].
    destruct (Nat.iter _ _ _) as [m' r' s']. cbn [shr_r shr_s] in *. by subst.
  - eexists _, _. split; [reflexivity|]. split; [lia|].
    rewrite Z.sub_diag, Z.div_1_r.
    split; [apply shr_record_of_loc_m|]. by intros -> _.
Qed.

Lemma fexp_at_most (m e j : Z) :
  0 <= m → e <= j → -1074 <= j → m < 2 ^ (53 + j - e) →
  Z.max e (fexp 53 1024 (Zdigits2 m + e)) <= j.
Proof.
  intros Hm He Hj Hlt.
  pose proof (Zdigits2_le m (53 + j - e) Hm ltac:(lia) Hlt).
  unfold fexp, emin. lia.
Qed.

(** Rounding a number that is below [Bhi * 2^jhi], or exact and at most
    that, for [Bhi] of at most 53 bits: the result has a mantissa [m] and an
    exponent [e <= jhi], it is at most the bound, and it is not below any
    [Blo * 2^jlo] with [jhi <= jlo] that the number is not below. *)
Lemma round_anatomy (mx ex Bhi jhi : Z) (lx : location) :
  0 <= mx → ex <= jhi → -1074 <= jhi <= 971 → 0 < Bhi < 2 ^ 53 →
  mx + 1 <= Bhi * 2 ^ (jhi - ex) ∨ (lx = loc_Exact ∧ mx <= Bhi * 2 ^ (jhi - ex)) →
  ∃ m e,
    ex <= e <= jhi ∧ 0 <= m <= Bhi * 2 ^ (jhi - e) ∧
    (∀ Blo jlo, 0 <= Blo → jhi <= jlo → Blo * 2 ^ (jlo - ex) <= mx →
       Blo * 2 ^ (jlo - e) <= m) ∧
    binary_round_aux 53 1024 false mx ex lx =
      match m with
      | 0 => S754_zero false
      | Z.pos p => S754_finite false p e
      | Z.neg _ => S754_nan
      end.
Proof.
  intros Hm He Hj HB Hle. unfold binary_round_aux.
  assert (Hcap : ∀ m e, 0 <= m → e <= jhi → m <= Bhi * 2 ^ (jhi - e) →
                        m < 2 ^ (53 + jhi - e)).
  { intros m e Hm0 Hej Hmb. replace (53 + jhi - e) with (53 + (jhi - e)) by lia.
    rewrite Z.pow_add_r by lia.
    assert (0 < 2 ^ (jhi - e)) by (apply Z.pow_pos_nonneg; lia). nia. }
  destruct (shr_fexp_spec mx ex lx Hm) as (mrs1 & e1 & -> & He1 & Hm1 & Hx1).
  assert (He1j : ex <= e1 <= jhi).
  { split; [lia|]. rewrite He1. apply fexp_at_most; try lia. apply Hcap; lia. }
  clear He1.
  set (m2 := round_nearest_even (shr_m mrs1) (loc_of_shr_record mrs1)).
  assert (Hpow : Bhi * 2 ^ (jhi - ex) = Bhi * 2 ^ (jhi - e1) * 2 ^ (e1 - ex)).
  { rewrite <- Z.mul_assoc, <- Z.pow_add_r by lia. do 2 f_equal. lia. }
  assert (Hp1 : 0 < 2 ^ (e1 - ex)) by (apply Z.pow_pos_nonneg; lia).
  assert (Hm1pos : 0 <= shr_m mrs1) by (rewrite Hm1; apply Z.div_pos; lia).
  pose proof (round_nearest_even_bounds (shr_m mrs1) (loc_of_shr_record mrs1)) as Hr.
  fold m2 in Hr.
  assert (Hm2 : 0 <= m2 <= Bhi * 2 ^ (jhi - e1)).
  { split; [lia|].
    destruct Hle as [Hlt | [-> Hle]].
    - assert (shr_m mrs1 < Bhi * 2 ^ (jhi - e1)); [|lia].
      rewrite Hm1. apply Z.div_lt_upper_bound; [lia|]. lia.
    - destruct (Z.eq_dec mx (Bhi * 2 ^ (jhi - ex))) as [Heq | Hne].
      + assert (Hmod : mx mod 2 ^ (e1 - ex) = 0).
        { rewrite Heq, Hpow. apply Z.mod_mul. lia. }
        unfold m2. rewrite (Hx1 eq_refl Hmod). cbn [round_nearest_even].
        rewrite Hm1, Heq, Hpow, Z.div_mul by lia. lia.
      + assert (shr_m mrs1 < Bhi * 2 ^ (jhi - e1)); [|lia].
        rewrite Hm1. apply Z.div_lt_upper_bound; [lia|]. lia. }
  destruct (shr_fexp_spec m2 e1 loc_Exact ltac:(lia)) as (mrs2 & e2 & -> & He2 & Hm3 & _).
  assert (He2j : e1 <= e2 <= jhi).
  { split; [lia|]. rewrite He2. apply fexp_at_most; try lia. apply Hcap; lia. }
  clear He2.
  assert (Hpow2 : Bhi * 2 ^ (jhi - e1) = Bhi * 2 ^ (jhi - e2) * 2 ^ (e2 - e1)).
  { rewrite <- Z.mul_assoc, <- Z.pow_add_r by lia. do 2 f_equal. lia. }
  assert (Hp2 : 0 < 2 ^ (e2 - e1)) by (apply Z.pow_pos_nonneg; lia).
  assert (Hm3b : 0 <= shr_m mrs2 <= Bhi * 2 ^ (jhi - e2)).
  { rewrite Hm3. split; [apply Z.div_pos; lia|].
    apply Z.div_le_upper_bound; [lia|]. lia. }
  exists (shr_m mrs2), e2. split; [lia|]. split; [exact Hm3b|]. split.
  - intros Blo jlo HBlo Hjj Hlo.
    assert (H1 : Blo * 2 ^ (jlo - e1) <= shr_m mrs1).
    { rewrite Hm1. apply Z.div_le_lower_bound; [lia|].
      rewrite Z.mul_comm, <- Z.mul_assoc, <- Z.pow_add_r by lia.
      replace (jlo - e1 + (e1 - ex)) with (jlo - ex) by lia. exact Hlo. }
    rewrite Hm3. apply Z.div_le_lower_bound; [lia|].
    rewrite Z.mul_comm, <- Z.mul_assoc, <- Z.pow_add_r by lia.
    replace (jlo - e2 + (e2 - e1)) with (jlo - e1) by lia. lia.
  - destruct (shr_m mrs2) as [|m3|m3]; [reflexivity | | lia].
    by replace (e2 <=? 1024 - 53) with true by (symmetry; apply Z.leb_le; lia).
Qed.

Lemma Zdigits2_log2 (p : positive) : Zdigits2 (Z.pos p) = Z.log2 (Z.pos p) + 1.
Proof. cbn [Zdigits2]. rewrite digits2_pos_size. destruct p; cbn [Z.log2 Pos.size]; lia. Qed.

Lemma Zdigits2_mono (a b : positive) :
  (a <= b)%positive → Zdigits2 (Z.pos a) <= Zdigits2 (Z.pos b).
Proof.
  intros H. rewrite !Zdigits2_log2.
  pose proof (Z.log2_le_mono (Z.pos a) (Z.pos b) ltac:(lia)). lia.
Qed.

(** The quotient of two positive [int]s, the first at most the second,
    between two bounds. *)
Lemma SFdiv_anatomy (a t : positive) (Bhi : Z) :
  (a <= t)%positive → 0 < Bhi < 2 ^ 53 → Z.pos a * 2 ^ 53 < Bhi * Z.pos t →
  ∃ m e,
    e <= -53 ∧ 0 <= m <= Bhi * 2 ^ (-53 - e) ∧
    (∀ Blo jlo, 0 <= Blo → -53 <= jlo <= 0 → Blo * Z.pos t <= Z.pos a * 2 ^ (- jlo) →
       Blo * 2 ^ (jlo - e) <= m) ∧
    SFdiv 53 1024 (S754_finite false a 0) (S754_finite false t 0) =
      match m with
      | 0 => S754_zero false
      | Z.pos p => S754_finite false p e
      | Z.neg _ => S754_nan
      end.
Proof.
  intros Hat HB Hlt. cbn [SFdiv xorb]. unfold SFdiv_core_binary.
  set (e' := Z.min _ _).
  assert (He' : -1074 <= e' <= -53).
  { unfold e', fexp, emin. pose proof (Zdigits2_mono a t Hat). lia. }
  destruct (0 - 0 - e') as [|s|s] eqn:Hs; [lia | | lia].
  rewrite Z.shiftl_mul_pow2 by lia. rewrite div_eucl_div_mod.
  assert (Hse : Z.pos s = - e') by lia. rewrite Hse. clear Hs.
  assert (Hp : 0 < 2 ^ (- e')) by (apply Z.pow_pos_nonneg; lia).
  assert (Hsplit : 2 ^ (- e') = 2 ^ 53 * 2 ^ (-53 - e')).
  { rewrite <- Z.pow_add_r by lia. f_equal. lia. }
  assert (Hp' : 0 < 2 ^ (-53 - e')) by (apply Z.pow_pos_nonneg; lia).
  destruct (round_anatomy (Z.pos a * 2 ^ (- e') / Z.pos t) e' Bhi (-53)
              (new_location (Z.pos t) ((Z.pos a * 2 ^ (- e')) mod Z.pos t)))
    as (m & e & He & Hm & Hlow & Heq).
  - apply Z.div_pos; lia.
  - lia.
  - lia.
  - exact HB.
  - left. assert (Z.pos a * 2 ^ (- e') / Z.pos t < Bhi * 2 ^ (-53 - e')); [|lia].
    apply Z.div_lt_upper_bound; [lia|]. rewrite Hsplit. nia.
  - exists m, e. split; [lia|]. split; [exact Hm|]. split; [|exact Heq].
    intros Blo jlo HBlo Hj Hle. apply (Hlow Blo jlo HBlo); [lia|].
    apply Z.div_le_lower_bound; [lia|].
    assert (Hsplit2 : 2 ^ (- e') = 2 ^ (- jlo) * 2 ^ (jlo - e')).
    { rewrite <- Z.pow_add_r by lia. f_equal. lia. }
    assert (0 < 2 ^ (jlo - e')) by (apply Z.pow_pos_nonneg; lia).
    rewrite Hsplit2. nia.
Qed.

(** [int((a / t) * 100)] for [0 < a < t <= 2^44]: the floor of
    [100 * a / t], or one less. *)
Lemma percent_floor (a t : Z) :
  0 < a < t → t <= 2 ^ 44 →
  ∃ q p n, int_truediv a t = inr q ∧ float_mul_int q 100 = inr p ∧
           int_of_float p = inr n ∧ 100 * a / t - 1 <= n <= 100 * a / t.
Proof.
  intros Ha Ht.
  set (k := 100 * a / t).
  assert (Hk1 : k * t <= 100 * a).
  { pose proof (Z.mul_div_le (100 * a) t ltac:(lia)). unfold k. lia. }
  assert (Hk2 : 100 * a < (k + 1) * t).
  { pose proof (Z.mul_succ_div_gt (100 * a) t ltac:(lia)). unfold k. lia. }
  assert (Hk : 0 <= k <= 99) by nia.
  set (B2 := (k + 1) * 2 ^ 45 - 1).
  set (Y := B2 * 2 ^ 8 / 100).
  assert (HY1 : 100 * Y <= B2 * 2 ^ 8).
  { pose proof (Z.mul_div_le (B2 * 2 ^ 8) 100 ltac:(lia)). unfold Y. lia. }
  assert (HY2 : B2 * 2 ^ 8 < 100 * (Y + 1)).
  { pose proof (Z.mul_succ_div_gt (B2 * 2 ^ 8) 100 ltac:(lia)). unfold Y. lia. }
  assert (HB2 : 0 < B2 < 2 ^ 53) by (unfold B2; lia).
  assert (HY : 0 < Y < 2 ^ 53) by (unfold B2 in *; lia).
  set (Ylo := Z.max 0 (((k - 1) * 1024 + 99) / 100)).
  assert (HYlo1 : (k - 1) * 1024 <= 100 * Ylo).
  { pose proof (Z.mul_succ_div_gt ((k - 1) * 1024 + 99) 100 ltac:(lia)). unfold Ylo. lia. }
  assert (HYlo2 : Ylo = 0 ∨ 100 * Ylo <= (k - 1) * 1024 + 99).
  { pose proof (Z.mul_div_le ((k - 1) * 1024 + 99) 100 ltac:(lia)). unfold Ylo. lia. }
  assert (HYlo0 : 0 <= Ylo) by (unfold Ylo; lia).
  destruct a as [|a|a]; [lia | | lia]. destruct t as [|t|t]; [lia | | lia].
  destruct (SFdiv_anatomy a t Y ltac:(lia) HY) as (mQ & eQ & HeQ & HmQ & HlowQ & HQ).
  { unfold B2 in *. nia. }
  assert (HmQlo : Ylo * 2 ^ (-10 - eQ) <= mQ).
  { apply (HlowQ Ylo (-10) HYlo0); [lia|]. change (2 ^ (- -10)) with 1024.
    destruct HYlo2 as [-> | HYlo2]; nia. }
  assert (Hpq : 0 < 2 ^ (-53 - eQ)) by (apply Z.pow_pos_nonneg; lia).
  unfold int_truediv.
  change (Z.pos a <? 0) with false. change (Z.pos t <? 0) with false.
  change (Z.to_pos (Z.abs (Z.pos a))) with a. change (Z.to_pos (Z.abs (Z.pos t))) with t.
  rewrite HQ. unfold float_mul_int. rewrite float_of_int_100.
  cbn [mbind pyexn_bind mret pyexn_ret].
  destruct mQ as [|mQ|mQ]; [| |lia].
  - eexists _, _, _. split; [reflexivity|]. split; [reflexivity|]. split; [reflexivity|].
    assert (Ylo = 0) by nia. lia.
  - exists (S754_finite false mQ eQ). cbn [SFmul xorb].
    set (Blo := Z.max 0 (k - 1)).
    destruct (round_anatomy (Z.pos (mQ * 7036874417766400)) (eQ + -46) B2 (-45) loc_Exact)
      as (mP & eP & HeP & HmP & HlowP & HP).
    + lia.
    + lia.
    + lia.
    + exact HB2.
    + right. split; [reflexivity|]. rewrite Pos2Z.inj_mul.
      replace (-45 - (eQ + -46)) with (54 + (-53 - eQ)) by lia.
      rewrite Z.pow_add_r by lia. change (2 ^ 54) with 18014398509481984.
      change (2 ^ 8) with 256 in *. nia.
    + rewrite HP.
      assert (HmPlo : Blo * 2 ^ (0 - eP) <= mP).
      { apply (HlowP Blo 0); [unfold Blo; lia | lia |]. rewrite Pos2Z.inj_mul.
        replace (0 - (eQ + -46)) with (56 + (-10 - eQ)) by lia.
        rewrite Z.pow_add_r by lia. change (2 ^ 56) with 72057594037927936.
        assert (0 < 2 ^ (-10 - eQ)) by (apply Z.pow_pos_nonneg; lia).
        unfold Blo. nia. }
      assert (HpP : 0 < 2 ^ (-45 - eP)) by (apply Z.pow_pos_nonneg; lia).
      assert (Hsplit : 2 ^ (0 - eP) = 2 ^ 45 * 2 ^ (-45 - eP)).
      { rewrite <- Z.pow_add_r by lia. f_equal. lia. }
      destruct mP as [|mP|mP]; [| |lia].
      * eexists _, _. split; [reflexivity|]. split; [reflexivity|]. split; [reflexivity|].
        unfold Blo in *. nia.
      * destruct eP as [|eP|eP]; [lia | lia |].
        eexists _, _. split; [reflexivity|]. split; [reflexivity|].
        cbn [int_of_float cond_Zopp]. split; [reflexivity|].
        rewrite Z.shiftr_div_pow2 by lia.
        change (0 - Z.neg eP) with (Z.pos eP) in *.
        assert (Hpe : 0 < 2 ^ Z.pos eP) by (apply Z.pow_pos_nonneg; lia).
        assert (Hn : Z.pos mP / 2 ^ Z.pos eP * 2 ^ Z.pos eP <= Z.pos mP).
        { pose proof (Z.mul_div_le (Z.pos mP) (2 ^ Z.pos eP) Hpe). lia. }
        assert (Hn2 : Z.pos mP < (Z.pos mP / 2 ^ Z.pos eP + 1) * 2 ^ Z.pos eP).
        { pose proof (Z.mul_succ_div_gt (Z.pos mP) (2 ^ Z.pos eP) Hpe). lia. }
        set (n := Z.pos mP / 2 ^ Z.pos eP) in *.
        unfold Blo, B2 in *. change (2 ^ 45) with 35184372088832 in *.
        split; nia.
Qed.

(** The narrowing to a C [int] leaves a value of 32 bits as it is, and
    whatever it lets through is one. *)
Lemma c_int_range (n : Z) : - 2 ^ 31 <= c_int n < 2 ^ 31.
Proof.
  unfold c_int. pose proof (Z.mod_pos_bound (n + 2 ^ 31) (2 ^ 32) ltac:(lia)). lia.
Qed.

Lemma emit_int_small (n : Z) : - 2 ^ 31 <= n < 2 ^ 31 → emit_int n = inr n.
Proof.
  intros Hn. unfold emit_int, c_int.
  replace (- 2 ^ 63 <=? n) with true by (symmetry; apply Z.leb_le; lia).
  replace (n <? 2 ^ 63) with true by (symmetry; apply Z.ltb_lt; lia).
  cbn [andb]. rewrite Z.mod_small by lia. f_equal. lia.
Qed.

Lemma emit_int_range (n v : Z) : emit_int n = inr v → - 2 ^ 31 <= v < 2 ^ 31.
Proof.
  unfold emit_int. destruct (_ && _); [|discriminate].
  intros [= <-]. apply c_int_range.
Qed.




(** * The download task *)

Lemma progress_hook_signals (d : gmap string pyval) (sigs : list signal) :
  _progress_hook d = inr sigs → Forall (fun s => hook_signal s = true) sigs.
Proof.
  unfold _progress_hook.
  destruct (getitem d "status") as [e|status]; cbn [mbind pyexn_bind]; [discriminate|].
  destruct (eq_str status "downloading").
  - destruct (truthy _); [|intros [= <-]; constructor].
    destruct (truediv _ _) as [e|q]; cbn [mbind pyexn_bind]; [discriminate|].
    destruct (float_mul_int q 100) as [e|p]; cbn [mbind pyexn_bind]; [discriminate|].
    destruct (int_of_float p) as [e|n]; cbn [mbind pyexn_bind]; [discriminate|].
    destruct (emit_int n) as [e|v]; cbn [mbind pyexn_bind]; [discriminate|].
    intros [= <-]. by repeat constructor.
  - destruct (eq_str status "finished"); [intros [= <-]; by repeat constructor|].
    destruct (eq_str status "error"); intros [= <-]; by repeat constructor.
Qed.

Lemma run_hooks_events (r : ydl_run) :
  Forall (fun ev => hook_event ev = true) (run_hooks r).1.
Proof.
  induction r as [| e | d k IH]; cbn [run_hooks]; [constructor ..|].
  destruct (_progress_hook d) as [e|sigs] eqn:Hd; [apply IH|].
  specialize (IH (inr ())). destruct (run_hooks (k (inr ()))) as [t o].
  cbn [fst] in *. apply Forall_app. split; [|exact IH].
  apply Forall_fmap. eapply Forall_impl; [exact (progress_hook_signals _ _ Hd)|].
  intros s Hs. exact Hs.
Qed.

Lemma passed_opts_app (t1 t2 : list wevent) :
  passed_opts (t1 ++ t2) = passed_opts t1 ++ passed_opts t2.
Proof. apply omap_app. Qed.

Lemma passed_opts_hooks (t : list wevent) :
  Forall (fun ev => hook_event ev = true) t → passed_opts t = [].
Proof.
  induction 1 as [|ev t Hev _ IH]; [reflexivity|].
  destruct ev; [exact IH | discriminate].
Qed.

Lemma finished_not_in_hooks (t : list wevent) :
  Forall (fun ev => hook_event ev = true) t → Emit operation_finished ∉ t.
Proof.
  intros H Hin. rewrite Forall_forall in H. by apply H in Hin.
Qed.

Lemma thumbnail_condition (video_info : option (gmap string pyval)) :
  truthy_dict video_info && truthy (get (default ∅ video_info) "thumbnail") = true ↔
  ∃ info thumb, video_info = Some info ∧ info !! "thumbnail" = Some thumb ∧
                truthy thumb = true.
Proof.
  rewrite andb_true_iff. split.
  - intros [Hd Ht]. destruct video_info as [info|]; [|discriminate].
    cbn [from_option id] in Ht. unfold get, get_default in Ht.
    destruct (info !! "thumbnail") as [thumb|] eqn:Hl; [|discriminate].
    by exists info, thumb.
  - intros (info & thumb & -> & Hl & Ht). cbn [truthy_dict from_option id].
    unfold get, get_default. rewrite Hl. split; [|exact Ht].
    apply negb_true_iff, bool_decide_eq_false. intros ->.
    by rewrite lookup_empty in Hl.
Qed.

Section DownloadTask.

Variable os_path_join : string -> string -> string.
Variable ydl : ydl_opts -> list string -> ydl_run.

Ltac download_video_cases :=
  unfold download_video;
  destruct (String.eqb _ "mp3") eqn:Hmp3;
  [ apply String.eqb_eq in Hmp3
  | apply String.eqb_neq in Hmp3;
    destruct (String.eqb _ "Best") eqn:Hbest;
    [ apply String.eqb_eq in Hbest
    | apply String.eqb_neq in Hbest;
      destruct (int_of_str _) as [height_int|] eqn:Hint ] ];
  (match goal with
   | |- context [if ?em then (if truthy_dict _ && _ then _ else _) else _] =>
       destruct em eqn:Hem; [destruct (truthy_dict _ && _) eqn:Hthumb |]
   end);
  cbv beta iota zeta;
  match goal with
  | |- context [run_hooks ?r] =>
      pose proof (run_hooks_events r) as Hhooks;
      destruct (run_hooks r) as [hooks [[e|e|e]|]]
  end;
  cbn [fst snd] in *;
  rewrite <- ?app_assoc;
  try change [Emit operation_finished] with ([] ++ [Emit operation_finished]) at 1.

Ltac fact :=
  intros;
  first [ reflexivity | contradiction | discriminate
        | match goal with
          | H : Some _ = Some _ |- _ => injection H as <-; reflexivity
          end ].

Ltac in_list :=
  repeat first [apply list_elem_of_here | apply list_elem_of_further].

Ltac not_in_list :=
  rewrite ?elem_of_cons, elem_of_nil; intros H;
  repeat (destruct H as [H|H]; [discriminate H|]); exact H.

Lemma download_video_anatomy
    (url output_path file_format quality : string)
    (is_playlist use_custom_filename : bool) (filename_template : string)
    (embed_metadata : bool) (video_info : option (gmap string pyval)) :
  ∃ log_quality log_embed opts hooks ending exn,
    download_video os_path_join ydl url output_path file_format quality
      is_playlist use_custom_filename filename_template embed_metadata video_info =
    (log_quality ++ log_embed ++
     [Emit (log_message ("Starting download of " +:+ upper file_format +:+ "...") "info");
      YoutubeDL_download opts [url]] ++
     hooks ++ ending ++ [Emit operation_finished], exn) ∧
    Forall (fun ev => hook_event ev = true) (log_quality ++ log_embed ++ hooks) ∧
    Forall final_event ending ∧
    (* the format selector *)
    (file_format = "mp3" → format opts = "bestaudio/best") ∧
    (file_format ≠ "mp3" → quality = "Best" →
       format opts = "bestvideo*+bestaudio/best") ∧
    (file_format ≠ "mp3" → quality ≠ "Best" →
       ∀ H, int_of_str (replace_del "p" quality) = Some H →
         format opts = "bestvideo[height<=" +:+ str_of_int H +:+ "]+bestaudio/best") ∧
    (file_format ≠ "mp3" → quality ≠ "Best" →
       int_of_str (replace_del "p" quality) = None →
         format opts = "bestvideo*+bestaudio/best" ∧
         log_quality =
           [Emit (log_message ("Invalid quality selected: " +:+ quality +:+
                               ". Falling back to 'Best'.") "warning")]) ∧
    (* the post-processors *)
    (embed_metadata = true →
       ∃ pps, postprocessors opts = Some pps ∧ FFmpegMetadata ∈ pps ∧
         (truthy_dict video_info && truthy (get (default ∅ video_info) "thumbnail") = true →
            EmbedThumbnail ∈ pps) ∧
         (truthy_dict video_info && truthy (get (default ∅ video_info) "thumbnail") = false →
            (EmbedThumbnail ∉ pps) ∧
            log_embed = [Emit (log_message "Warning: Cannot embed thumbnail as no video info or thumbnail URL was available." "warning")])).
Proof.
  download_video_cases.
  all: do 6 eexists.
  all: (split; [reflexivity|]).
  all: (split; [repeat (apply Forall_cons; split; [reflexivity|]); exact Hhooks|]).
  all: (split; [repeat (apply Forall_cons; split;
                  [first [by left | right; by eexists]|]); apply Forall_nil_2|]).
  all: cbn [format postprocessors].
  all: (split; [fact|]).
  all: (split; [fact|]).
  all: (split; [fact|]).
  all: (split; [first [fact | intros; split; reflexivity]|]).
  all: intros Hc; try discriminate Hc.
  all: eexists; (split; [reflexivity|]); cbn [app].
  all: (split; [in_list|]).
  all: (split; intros Hc'; [first [discriminate Hc' | in_list]
                          |first [discriminate Hc' | split; [not_in_list | reflexivity]]]).
Qed.

Lemma passed_opts_final (t : list wevent) :
  Forall final_event t → passed_opts t = [].
Proof.
  induction 1 as [|ev t Hev _ IH]; [reflexivity|].
  destruct Hev as [-> | [m ->]]; exact IH.
Qed.

Lemma finished_not_final (t : list wevent) :
  Forall final_event t → Emit operation_finished ∉ t.
Proof.
  intros H Hin. rewrite Forall_forall in H.
  apply H in Hin as [Hin | [m Hin]]; discriminate Hin.
Qed.


Lemma deliver_all_app (t1 t2 : list wevent) (st : App) :
  deliver_all (t1 ++ t2) st =
  let '(st1, e1) := deliver_all t1 st in
  let '(st2, e2) := deliver_all t2 st1 in
  (st2, e1 ++ e2).
Proof.
  revert st. induction t1 as [|ev t1 IH]; intros st.
  - cbn [app deliver_all]. by destruct (deliver_all t2 st).
  - cbn [app deliver_all]. destruct ev as [s | opts urls].
    + destruct (deliver s st) as [st1 e1]. rewrite IH.
      destruct (deliver_all t1 st1) as [st2 e2].
      destruct (deliver_all t2 st2) as [st3 e3]. by rewrite app_assoc.
    + rewrite IH. destruct (deliver_all t1 st) as [st2 e2].
      by destruct (deliver_all t2 st2) as [st3 e3].
Qed.

Lemma set_ui_state_enabled (st : App) :
  widgets (enabled (set_ui_state "enabled" st)) = true.
Proof. reflexivity. Qed.

(** C6. Whatever yt-dlp does (it returns, raises [DownloadError], raises
    another exception, or a hook raises), the trace of [download_video]
    ends with [operation_finished], which occurs nowhere before; once the
    trace is delivered the widgets are enabled. *)
Theorem download_ends_with_one_operation_finished
    (url output_path file_format quality : string)
    (is_playlist use_custom_filename : bool) (filename_template : string)
    (embed_metadata : bool) (video_info : option (gmap string pyval))
    (st : App) :
  let t := (download_video os_path_join ydl url output_path file_format quality
              is_playlist use_custom_filename filename_template embed_metadata
              video_info).1 in
  (∃ pre, t = pre ++ [Emit operation_finished] ∧ Emit operation_finished ∉ pre) ∧
  widgets (enabled (deliver_all t st).1) = true.
Proof.
  intros t. subst t.
  destruct (download_video_anatomy url output_path file_format quality is_playlist
              use_custom_filename filename_template embed_metadata video_info)
    as (lq & le & opts & hooks & ending & exn & -> & Hlogs & Hend & _).
  cbn [fst].
  apply Forall_app in Hlogs as [Hlq Hlogs].
  apply Forall_app in Hlogs as [Hle Hhooks].
  assert (Hshape : ∃ pre,
    lq ++ le ++
      [Emit (log_message ("Starting download of " +:+ upper file_format +:+ "...") "info");
       YoutubeDL_download opts [url]] ++ hooks ++ ending ++ [Emit operation_finished] =
    pre ++ [Emit operation_finished] ∧ Emit operation_finished ∉ pre).
  { eexists (lq ++ le ++ [_; _] ++ hooks ++ ending). split.
    - by rewrite <- !app_assoc.
    - rewrite !elem_of_app, !elem_of_cons, elem_of_nil.
      intros [H | [H | [[H | [H | []]] | [H | H]]]]; try discriminate H.
      + by apply (finished_not_in_hooks _ Hlq).
      + by apply (finished_not_in_hooks _ Hle).
      + by apply (finished_not_in_hooks _ Hhooks).
      + by apply (finished_not_final _ Hend). }
  split; [exact Hshape|].
  destruct Hshape as (pre & -> & _). rewrite deliver_all_app.
  destruct (deliver_all pre st) as [st1 e1]. cbn [deliver_all deliver fst].
  apply set_ui_state_enabled.
Qed.

(** C9. With metadata embedding on, the options handed to yt-dlp hold the
    [FFmpegMetadata] step, and hold the [EmbedThumbnail] step exactly when
    the metadata is there and has a thumbnail that is not empty; when it is
    not, a warning is logged and yt-dlp is called all the same. *)
Theorem thumbnail_step_iff_metadata_has_thumbnail
    (url output_path file_format quality : string)
    (is_playlist use_custom_filename : bool) (filename_template : string)
    (video_info : option (gmap string pyval)) :
  let t := (download_video os_path_join ydl url output_path file_format quality
              is_playlist use_custom_filename filename_template true
              video_info).1 in
  let has_thumbnail :=
    ∃ info thumb, video_info = Some info ∧ info !! "thumbnail" = Some thumb ∧
                  truthy thumb = true in
  ∃ opts pps, passed_opts t = [(opts, [url])] ∧
    postprocessors opts = Some pps ∧ FFmpegMetadata ∈ pps ∧
    (EmbedThumbnail ∈ pps ↔ has_thumbnail) ∧
    (¬ has_thumbnail →
       Emit (log_message "Warning: Cannot embed thumbnail as no video info or thumbnail URL was available." "warning") ∈ t).
Proof.
  intros t has_thumbnail. subst t.
  destruct (download_video_anatomy url output_path file_format quality is_playlist
              use_custom_filename filename_template true video_info)
    as (lq & le & opts & hooks & ending & exn & -> & Hlogs & Hend & _ & _ & _ & _ & Hpp).
  destruct (Hpp eq_refl) as (pps & Hpps & Hmeta & Hyes & Hno).
  cbn [fst]. exists opts, pps. split; [|split; [exact Hpps | split; [exact Hmeta|]]].
  - apply Forall_app in Hlogs as [Hlq Hlogs].
    apply Forall_app in Hlogs as [Hle Hhooks].
    rewrite !passed_opts_app, (passed_opts_hooks _ Hlq), (passed_opts_hooks _ Hle),
      (passed_opts_hooks _ Hhooks), (passed_opts_final _ Hend).
    reflexivity.
  - pose proof (thumbnail_condition video_info) as Hcond. fold has_thumbnail in Hcond.
    destruct (truthy_dict video_info && truthy (get (default ∅ video_info) "thumbnail")).
    + split; [split|].
      * intros _. by apply Hcond.
      * intros _. by apply Hyes.
      * intros Hn. destruct Hn. by apply Hcond.
    + destruct (Hno eq_refl) as [Hnot ->]. split; [split|].
      * intros Hin. by destruct Hnot.
      * intros Hh. apply Hcond in Hh. discriminate Hh.
      * intros _. rewrite elem_of_app, elem_of_app. right; left. apply list_elem_of_here.
Qed.

End DownloadTask.

(** * The duration label *)

Lemma split_free (c : ascii) (s : string) : free_of c s = true → split c s = [s].
Proof.
  induction s as [|a s IH]; [reflexivity|]. cbn [free_of split].
  intros [Ha Hs]%andb_true_iff. apply negb_true_iff in Ha. rewrite Ha.
  by rewrite (IH Hs).
Qed.

Lemma split_app (c : ascii) (a b : string) :
  free_of c a = true → split c (a +:+ String c b) = a :: split c b.
Proof.
  induction a as [|x a IH].
  - intros _. rewrite append_nil_l. cbn [split]. by rewrite Ascii.eqb_refl.
  - cbn [free_of]. intros [Hx Ha]%andb_true_iff. apply negb_true_iff in Hx.
    rewrite append_cons. cbn [split]. by rewrite Hx, (IH Ha).
Qed.

Lemma free_of_app (c : ascii) (a b : string) :
  free_of c a = true → free_of c b = true → free_of c (a +:+ b) = true.
Proof.
  intros Ha Hb. induction a as [|x a IH]; [exact Hb|].
  rewrite append_cons. cbn [free_of] in *.
  apply andb_true_iff in Ha as [Hx Ha]. by rewrite Hx, (IH Ha).
Qed.

Lemma digits_free_of_colon (d : Decimal.uint) :
  free_of ":" (NilEmpty.string_of_uint d) = true.
Proof. induction d; [reflexivity | exact IHd ..]. Qed.

Lemma str_of_int_free_of_colon (n : Z) : 0 <= n → free_of ":" (str_of_int n) = true.
Proof.
  intros Hn. destruct n as [|p|p]; [reflexivity | | lia].
  unfold str_of_int, Z.to_int, NilZero.string_of_int, NilZero.string_of_uint.
  destruct (Pos.to_uint p) eqn:Hp; [reflexivity | rewrite <- Hp ..];
    apply digits_free_of_colon.
Qed.

Lemma fmt_02d_free_of_colon (n : Z) : 0 <= n → free_of ":" (fmt_02d n) = true.
Proof.
  intros Hn. unfold fmt_02d.
  destruct (n <? 10); [apply (free_of_app ":" "0"); [reflexivity|] |];
    by apply str_of_int_free_of_colon.
Qed.

Lemma str_of_int_is_zero (n : Z) : 0 <= n → str_of_int n = "0" → n = 0.
Proof.
  intros Hn H. destruct n as [|p|p]; [reflexivity | exfalso | lia].
  unfold str_of_int, Z.to_int, NilZero.string_of_int, NilZero.string_of_uint in H.
  destruct (Pos.to_uint p) eqn:Hp; [| | discriminate H ..].
  - by apply (DecimalPos.Unsigned.to_uint_nonnil p).
  - rewrite <- Hp in H. apply (DecimalPos.Unsigned.to_uint_nonzero p).
    pose proof (NilEmpty.usu (Pos.to_uint p)) as Hu. rewrite H in Hu.
    by injection Hu as <-.
Qed.

Lemma hours_minutes (n : Z) :
  0 <= n → n / 60 / 60 = n / 3600 ∧ (n / 60) mod 60 = (n mod 3600) / 60.
Proof.
  intros Hn. split.
  - rewrite Z.div_div by lia. reflexivity.
  - change 3600 with (60 * 60). rewrite Z.rem_mul_r by lia.
    rewrite (Z.mul_comm 60), Z.div_add by lia.
    rewrite (Z.div_small (n mod 60)) by (apply Z.mod_pos_bound; lia). lia.
Qed.

Lemma str_timedelta_int_within_a_day (n : Z) :
  0 <= n < 86400 →
  str_timedelta_int n =
    inr (str_of_int (n / 3600) +:+ ":" +:+ fmt_02d ((n mod 3600) / 60) +:+ ":" +:+
         fmt_02d (n mod 60)).
Proof.
  intros Hn. unfold str_timedelta_int.
  rewrite (Z.div_small n 86400), (Z.mod_small n 86400) by lia.
  destruct (hours_minutes n) as [-> ->]; [lia|]. reflexivity.
Qed.

(** The two-digit field of [str(timedelta)] and the decimal of the hours
    are the digits the specification writes. *)
Lemma fmt_02d_two_digits (n : Z) : 0 <= n < 100 → fmt_02d n = two_digits n.
Proof.
  intros Hn.
  assert (H : forallb (fun k => String.eqb (fmt_02d (Z.of_nat k)) (two_digits (Z.of_nat k)))
                (seq 0 100) = true) by (vm_compute; reflexivity).
  rewrite forallb_forall in H. specialize (H (Z.to_nat n)).
  rewrite Z2Nat.id in H by lia. apply String.eqb_eq, H, in_seq. lia.
Qed.

Lemma str_of_int_hour_digits (h : Z) : 0 <= h < 100 → str_of_int h = hour_digits h.
Proof.
  intros Hh.
  assert (H : forallb (fun k => String.eqb (str_of_int (Z.of_nat k)) (hour_digits (Z.of_nat k)))
                (seq 0 100) = true) by (vm_compute; reflexivity).
  rewrite forallb_forall in H. specialize (H (Z.to_nat h)).
  rewrite Z2Nat.id in H by lia. apply String.eqb_eq, H, in_seq. lia.
Qed.



(** * The slots of the window *)

Section Window.

Variable QUrl : string -> QUrl_t.
Variable Path_is_dir : string -> is_dir_outcome.
Variable Path_mkdir_result : string -> mkdir_outcome.

(** C5. When the debounce timer fires and the URL in the field (stripped)
    fails validation or is the [webpage_url] of the metadata on display,
    [_start_fetch_info_worker] calls no worker method and leaves the window
    as it is, preview and metadata included; so firing again gives the same
    result.  Seen from the timer: its running out does no more than disarm
    it. *)
Theorem redundant_fetch_is_suppressed (st : App) :
  let url := strip (url_entry st) in
  _is_valid_youtube_url QUrl url = false ∨
  (∃ info, current_video_info st = Some info ∧
           info !! "webpage_url" = Some (VStr url)) →
  _start_fetch_info_worker QUrl st = (st, []) ∧
  _start_fetch_info_worker QUrl (_start_fetch_info_worker QUrl st).1 = (st, []) ∧
  ∀ ms remaining, _fetch_info_timer st = Some remaining → (remaining <= ms)%nat →
    QTimer_elapse QUrl ms st = (with_fetch_info_timer None st, []).
Proof.
  intros url H.
  assert (Hs : ∀ timer, _start_fetch_info_worker QUrl (with_fetch_info_timer timer st)
                        = (with_fetch_info_timer timer st, [])).
  { intros timer. unfold _start_fetch_info_worker.
    cbn [url_entry current_video_info with_fetch_info_timer]. fold url.
    destruct H as [-> | (info & -> & Hinfo)]; [reflexivity|].
    cbn [truthy_dict from_option id]. unfold get_default. rewrite Hinfo.
    cbn [eq_str]. rewrite String.eqb_refl.
    replace (bool_decide (info = ∅)) with false; [by rewrite orb_true_r|].
    symmetry. apply bool_decide_eq_false. intros ->.
    by rewrite lookup_empty in Hinfo. }
  assert (Hst : _start_fetch_info_worker QUrl st = (st, [])).
  { specialize (Hs (_fetch_info_timer st)). by destruct st. }
  split; [exact Hst | split; [by rewrite Hst|]].
  intros ms remaining Ht Hle. unfold QTimer_elapse. rewrite Ht.
  replace (ms <? remaining)%nat with false by (symmetry; apply Nat.ltb_ge; lia).
  apply Hs.
Qed.

(** C7. When the URL text changes to one that (stripped) fails validation,
    the debounce timer is stopped, so that no amount of time makes it run
    the fetch, and the metadata and the preview are cleared at once; when
    the text passes validation the timer is armed anew with its 700 ms and
    metadata and preview stay. *)
Theorem url_change_arms_or_cancels_debounce (text : string) (st : App) :
  let st' := url_entry_textChanged QUrl text st in
  (_is_valid_youtube_url QUrl (strip text) = false →
     _fetch_info_timer st' = None ∧
     current_video_info st' = None ∧
     preview st' = cleared_preview ∧
     ∀ ms, QTimer_elapse QUrl ms st' = (st', [])) ∧
  (_is_valid_youtube_url QUrl (strip text) = true →
     _fetch_info_timer st' = Some 700%nat ∧
     current_video_info st' = current_video_info st ∧
     preview st' = preview st).
Proof.
  intros st'. subst st'.
  unfold url_entry_textChanged, _schedule_fetch_info. cbn [url_entry with_url_entry].
  split; intros ->; repeat split; reflexivity.
Qed.


End Window.

(** * The theorems at work *)


Lemma failed_download_example :
  (download_video join_sample ydl_failing "https://youtu.be/x" "/tmp"
     "mp4" "Best" false false "" false None).1 =
    [Emit (log_message "Starting download of MP4..." "info");
     YoutubeDL_download
       {| format := "bestvideo*+bestaudio/best";
          outtmpl := "/tmp/%(title)s.%(ext)s";
          noplaylist := true;
          merge_output_format := Some "mp4";
          nocheckcertificate := true;
          postprocessors := None |} ["https://youtu.be/x"];
     Emit (download_error "yt-dlp encountered an error during download or post-processing.");
     Emit (download_error ("Download error: ERROR: Video unavailable" +:+ String "010"
       "Possible issues: Invalid URL, geo-restriction, or missing FFmpeg/dependencies."));
     Emit operation_finished] ∧
  widgets (enabled (deliver_all
    (download_video join_sample ydl_failing "https://youtu.be/x" "/tmp"
       "mp4" "Best" false false "" false None).1
    (set_ui_state "disabled" app_sample)).1) = true.
Proof.
  split; [vm_compute; reflexivity|].
  exact (proj2 (download_ends_with_one_operation_finished join_sample ydl_failing
                  "https://youtu.be/x" "/tmp" "mp4" "Best" false false "" false None
                  (set_ui_state "disabled" app_sample))).
Defined.

Lemma thumbnail_step_examples :
  (∃ opts pps,
     passed_opts (download_video join_sample ydl_sample "https://youtu.be/x" "/tmp"
                    "mp4" "Best" false false "" true
                    (Some {["thumbnail" := VStr "https://i.ytimg.com/vi/x/hq.jpg"]})).1 =
       [(opts, ["https://youtu.be/x"])] ∧
     postprocessors opts = Some pps ∧ EmbedThumbnail ∈ pps) ∧
  Emit (log_message "Warning: Cannot embed thumbnail as no video info or thumbnail URL was available." "warning")
    ∈ (download_video join_sample ydl_sample "https://youtu.be/x" "/tmp"
         "mp4" "Best" false false "" true None).1.
Proof.
  split.
  - destruct (thumbnail_step_iff_metadata_has_thumbnail join_sample ydl_sample
                "https://youtu.be/x" "/tmp" "mp4" "Best" false false ""
                (Some {["thumbnail" := VStr "https://i.ytimg.com/vi/x/hq.jpg"]}))
      as (opts & pps & Hp & Hpps & _ & Hiff & _).
    exists opts, pps. split; [exact Hp|]. split; [exact Hpps|].
    apply Hiff. eexists _, _. split; [reflexivity|]. split; reflexivity.
  - destruct (thumbnail_step_iff_metadata_has_thumbnail join_sample ydl_sample
                "https://youtu.be/x" "/tmp" "mp4" "Best" false false "" None)
      as (opts & pps & _ & _ & _ & _ & Hw).
    apply Hw. intros (info & thumb & Hn & _). discriminate Hn.
Defined.

Lemma redundant_fetch_example :
  _start_fetch_info_worker QUrl_sample app_loaded = (app_loaded, []) ∧
  QTimer_elapse QUrl_sample 700 (with_fetch_info_timer (Some 700%nat) app_loaded) =
    (app_loaded, []).
Proof.
  split.
  - apply (redundant_fetch_is_suppressed QUrl_sample app_loaded).
    right. eexists. split; reflexivity.
  - apply (proj2 (proj2 (redundant_fetch_is_suppressed QUrl_sample
             (with_fetch_info_timer (Some 700%nat) app_loaded)
             (or_intror (ex_intro _ _ (conj eq_refl eq_refl)))))
             700%nat 700%nat eq_refl).
    lia.
Defined.

Lemma url_change_examples :
  _fetch_info_timer (url_entry_textChanged QUrl_sample "https://m.youtube.co" app_loaded)
    = None ∧
  current_video_info (url_entry_textChanged QUrl_sample "https://m.youtube.co" app_loaded)
    = None ∧
  _fetch_info_timer
    (url_entry_textChanged QUrl_sample " https://m.youtube.com/watch?v=x " app_sample)
    = Some 700%nat.
Proof.
  split; [|split].
  - apply (url_change_arms_or_cancels_debounce QUrl_sample
             "https://m.youtube.co" app_loaded). reflexivity.
  - apply (url_change_arms_or_cancels_debounce QUrl_sample
             "https://m.youtube.co" app_loaded). reflexivity.
  - apply (url_change_arms_or_cancels_debounce QUrl_sample
             " https://m.youtube.com/watch?v=x " app_sample). reflexivity.
Defined.


